(** * simple_server.py: a static file server on port 8000

    The program is three statements long:

      with socketserver.TCPServer(("", PORT), Handler) as httpd:
          print("good morning")
          httpd.serve_forever()

    with [PORT = 8000] and [Handler = http.server.SimpleHTTPRequestHandler].
    Everything it does is what these library classes do, so the development
    embeds the script together with the methods of CPython's [socketserver],
    [http.server] and [posixpath] that the script runs (release 3.11), each
    definition under the name of the method it follows.  What the library in
    turn delegates to the platform (the MIME table, date formatting, URL
    splitting, HTML pages) is an interface, [Platform], and every theorem
    holds for all its instances. *)

From Stdlib Require Import String Ascii List ZArith NArith Bool Lia.
From Stdlib Require Import Sorted Permutation.
From Stdlib Require Import DecimalString.
Import ListNotations.

Open Scope list_scope.
Open Scope string_scope.

(** ** Python [str] methods used by the library *)

Module PyStr.

Definition chr (n : nat) : string := String (ascii_of_nat n) EmptyString.

Definition CR : string := chr 13.
Definition LF : string := chr 10.

(** [s.split(sep)] for a one-character separator: never empty. *)
Fixpoint split (sep : ascii) (s : string) : list string :=
  match s with
  | EmptyString => [EmptyString]
  | String c s' =>
      if Ascii.eqb c sep then EmptyString :: split sep s'
      else match split sep s' with
           | w :: ws => String c w :: ws
           | [] => [String c EmptyString]
           end
  end.

(** [s.split(sep, 1)[0]]: what comes before the first [sep]. *)
Fixpoint before (sep : ascii) (s : string) : string :=
  match s with
  | EmptyString => EmptyString
  | String c s' => if Ascii.eqb c sep then EmptyString else String c (before sep s')
  end.

(** [s.split(sep, 1)[1]], when there is a [sep]. *)
Fixpoint after (sep : ascii) (s : string) : option string :=
  match s with
  | EmptyString => None
  | String c s' => if Ascii.eqb c sep then Some s' else after sep s'
  end.

(** [c in s] *)
Fixpoint contains (c : ascii) (s : string) : bool :=
  match s with
  | EmptyString => false
  | String d s' => Ascii.eqb d c || contains c s'
  end.

Definition startswith (s p : string) : bool := String.prefix p s.

Fixpoint endswith (s suffix : string) : bool :=
  String.eqb s suffix ||
  match s with
  | EmptyString => false
  | String _ s' => endswith s' suffix
  end.

Fixpoint rstrip (p : ascii -> bool) (s : string) : string :=
  match s with
  | EmptyString => EmptyString
  | String c s' =>
      let r := rstrip p s' in
      if String.eqb r EmptyString && p c then EmptyString else String c r
  end.

Fixpoint lstrip (p : ascii -> bool) (s : string) : string :=
  match s with
  | EmptyString => EmptyString
  | String c s' => if p c then lstrip p s' else s
  end.

(** [str.isspace] on the characters a request line can hold (it is decoded
    as ISO-8859-1): TAB LF VT FF CR, FS GS RS US, SPACE, NEL and NBSP. *)
Definition isspace (c : ascii) : bool :=
  let n := nat_of_ascii c in
  ((9 <=? n) && (n <=? 13) || (28 <=? n) && (n <=? 32)
   || (n =? 133) || (n =? 160))%nat.

(** [s.split()]: the maximal runs of characters that are not white space. *)
Fixpoint words (s : string) : list string :=
  match s with
  | EmptyString => []
  | String c s' =>
      if isspace c then words s'
      else match s' with
           | EmptyString => [String c EmptyString]
           | String d _ =>
               if isspace d then String c EmptyString :: words s'
               else match words s' with
                    | w :: ws => String c w :: ws
                    | [] => [String c EmptyString]
                    end
           end
  end.

Definition lower_char (c : ascii) : ascii :=
  let n := nat_of_ascii c in
  if ((65 <=? n) && (n <=? 90))%nat then ascii_of_nat (n + 32) else c.

(** [s.lower()]; exact on ASCII, which is all that is ever compared with. *)
Fixpoint lower (s : string) : string :=
  match s with
  | EmptyString => EmptyString
  | String c s' => String (lower_char c) (lower s')
  end.

Definition isdigit (c : ascii) : bool :=
  let n := nat_of_ascii c in ((48 <=? n) && (n <=? 57))%nat.

(** [str(n)] for a natural number. *)
Definition str (n : N) : string := NilZero.string_of_uint (N.to_uint n).

(** [a >= b] on strings. *)
Definition ge (a b : string) : bool := String.leb b a.

Definition is_empty (s : string) : bool := String.eqb s EmptyString.

Definition is_crlf (c : ascii) : bool :=
  Ascii.eqb c (ascii_of_nat 13) || Ascii.eqb c (ascii_of_nat 10).

End PyStr.

(** ** [posixpath] *)

Module posixpath.
Import PyStr.

Definition sep : ascii := "/"%char.
Definition curdir : string := ".".
Definition pardir : string := "..".

(** One turn of the loop of [normpath].  [new_comps] is kept as a stack,
    its last element first. *)
Definition normpath_step (initial_slashes : nat) (new_comps : list string)
           (comp : string) : list string :=
  if String.eqb comp "" || String.eqb comp curdir then new_comps
  else if negb (String.eqb comp pardir)
          || ((initial_slashes =? 0)%nat && match new_comps with [] => true | _ => false end)
          || match new_comps with top :: _ => String.eqb top pardir | [] => false end
       then comp :: new_comps
       else match new_comps with
            | _ :: rest => rest
            | [] => new_comps
            end.

Definition normpath (path : string) : string :=
  if String.eqb path "" then curdir
  else
    let initial_slashes :=
      if startswith path "/"
      then if startswith path "//" && negb (startswith path "///") then 2%nat else 1%nat
      else 0%nat in
    let comps := split sep path in
    let new_comps := fold_left (normpath_step initial_slashes) comps [] in
    let path := String.concat "/" (rev new_comps) in
    let path := String.concat "" (repeat "/" initial_slashes) ++ path in
    if String.eqb path "" then curdir else path.

(** [os.path.join(a, b)] *)
Definition join (a b : string) : string :=
  if startswith b "/" then b
  else if String.eqb a "" || endswith a "/" then a ++ b
  else a ++ "/" ++ b.

(** [p[:p.rfind('/') + 1]] *)
Fixpoint head_of (p : string) : string :=
  match p with
  | EmptyString => EmptyString
  | String c p' =>
      if Ascii.eqb c sep || contains sep p' then String c (head_of p') else EmptyString
  end.

Definition dirname (p : string) : string :=
  let head := head_of p in
  if negb (String.eqb head "") && negb (String.eqb (lstrip (Ascii.eqb sep) head) "")
  then rstrip (Ascii.eqb sep) head
  else head.

End posixpath.

(** ** The file system, as the calls of [os] and [open] see it

    A tree of directories and regular files.  There are no symbolic links
    and no permissions: a file that is there can be read.  Paths are
    resolved from the root; the handler only passes paths that start with
    [os.getcwd()], which is absolute. *)

Module os.
Import PyStr.

#[warnings="-register-all"]
Inductive node : Type :=
| File (data : string) (mtime : Z)
| Dir (entries : list (string * node)).

Fixpoint assoc (name : string) (entries : list (string * node)) : option node :=
  match entries with
  | [] => None
  | (n, x) :: rest => if String.eqb n name then Some x else assoc name rest
  end.

(** A name a directory entry can have. *)
Definition valid_name (n : string) : bool :=
  negb (String.eqb n "") && negb (String.eqb n ".") && negb (String.eqb n "..")
  && negb (contains "/" n).

(** Path resolution, one component at a time; [anc] holds the directories
    that lead to [cur], nearest first, for [..]. *)
Fixpoint walk (anc : list node) (cur : node) (comps : list string)
  : option (list node * node) :=
  match comps with
  | [] => Some (anc, cur)
  | c :: cs =>
      match cur with
      | File _ _ => None
      | Dir entries =>
          if String.eqb c "." then walk anc cur cs
          else if String.eqb c ".." then
            match anc with
            | [] => walk [] cur cs
            | p :: anc' => walk anc' p cs
            end
          else match assoc c entries with
               | Some n => walk (cur :: anc) n cs
               | None => None
               end
      end
  end.

Definition components (path : string) : list string :=
  filter (fun w => negb (is_empty w)) (split "/" path).

(** [os.stat(path)]; [None] stands for [OSError].  A path that ends in a
    slash names a directory or nothing. *)
Definition stat (root : node) (path : string) : option node :=
  if is_empty path then None
  else match walk [] root (components path) with
       | Some (_, File d m) => if endswith path "/" then None else Some (File d m)
       | Some (_, Dir es) => Some (Dir es)
       | None => None
       end.

Definition isdir (root : node) (path : string) : bool :=
  match stat root path with Some (Dir _) => true | _ => false end.

Definition isfile (root : node) (path : string) : bool :=
  match stat root path with Some (File _ _) => true | _ => false end.

(** [open(path, 'rb')] with [os.fstat] of the result: the bytes and the
    modification time; [None] stands for [OSError]. *)
Definition open (root : node) (path : string) : option (string * Z) :=
  match stat root path with Some (File d m) => Some (d, m) | _ => None end.

(** [os.listdir(path)]; entries that no directory can hold are dropped. *)
Definition listdir (root : node) (path : string) : option (list string) :=
  match stat root path with
  | Some (Dir es) => Some (filter valid_name (map fst es))
  | _ => None
  end.

End os.

(** ** Exceptions and the handler's monad *)

Inductive oserror : Type := EADDRINUSE | EACCES | EADDRNOTAVAIL.

Inductive exception : Type :=
| KeyboardInterrupt
| OSError (e : oserror)
| ConnectionResetError
| TimeoutError
| ValueError.

(** [isinstance(e, Exception)]: what [except Exception] catches. *)
Definition is_Exception (e : exception) : bool :=
  match e with KeyboardInterrupt => false | _ => true end.

(** [isinstance(e, OSError)] *)
Definition is_OSError (e : exception) : bool :=
  match e with OSError _ | ConnectionResetError | TimeoutError => true | _ => false end.

Inductive result (A : Type) : Type :=
| Ok (a : A)
| Raise (e : exception).
Arguments Ok {A} a.
Arguments Raise {A} e.

(** What the library leaves to the platform.  None of it is transcribed;
    the two laws are what the handler relies on for the path [/]. *)
Class Platform : Type := {
  (** [urllib.parse.unquote] *)
  unquote : string -> string;
  unquote_plain : forall s, PyStr.contains "%" s = false -> unquote s = s;
  (** [urllib.parse.urlsplit(url).path]; [None] when it raises [ValueError] *)
  urlsplit_path : string -> option string;
  urlsplit_root : urlsplit_path "/" = Some "/";
  (** [urlunsplit] of the parts of the URL with [/] added to the path *)
  redirect_url : string -> string;
  (** [SimpleHTTPRequestHandler.guess_type]: extension table and MIME database *)
  guess_type : string -> string;
  (** [email.utils.parsedate_to_datetime] as [send_head] uses it: the
      seconds since the epoch when the value parses and is in UTC (or names
      no zone), [None] when the header is to be ignored *)
  parsedate_utc : string -> option Z;
  (** [email.utils.formatdate(timestamp, usegmt=True)] *)
  formatdate : Z -> string;
  (** [email] header parsing of the lines [_read_headers] collected *)
  parse_header_lines : list string -> list (string * string);
  (** [error_message_format % {...}] with [html.escape], encoded *)
  error_page : Z -> string -> string -> string;
  (** the HTML page of [list_directory] for a display path and the sorted
      entries, each with the name shown and linked ([/] added to directories) *)
  listing_page : string -> list string -> string;
  (** [sys.getfilesystemencoding()] *)
  fs_encoding : string;
  (** ["Python/" + sys.version.split()[0]] *)
  sys_version : string;
  (** [repr] of a string, for the [%r] of messages *)
  repr : string -> string;
  (** the line [log_message] writes to [sys.stderr] for a client address,
      the time and a message *)
  log_line : string -> Z -> string -> string
}.

(** ** [http.server]: the request handler *)

Module http_server.
Import PyStr.

(** The request a handler object holds once [parse_request] has run. *)
Record request : Type := mk_request {
  requestline : string;
  command : option string;
  path : string;
  request_version : string;
  headers : list (string * string)
}.

(** One reply, as the handler builds it: [status] and [reason] are the
    status line of [send_response_only], [reply_headers] what [send_header]
    adds to the headers buffer, [ended] is set by [end_headers], [body] is
    what is written after it. *)
Record response : Type := mk_response {
  status : option Z;
  reason : string;
  reply_headers : list (string * string);
  ended : bool;
  body : string
}.

Definition empty_response : response := mk_response None "" [] false "".

(** A handler object, with what it reads from and writes to its
    surroundings: [rfile] is the lines still to be read from the connection,
    [wfile] the replies written to it, the latest first, [stderr] the lines
    logged. *)
Record handler : Type := mk_handler {
  directory : string;
  rfile : list string;
  raw_requestline : string;
  req : request;
  close_connection : bool;
  wfile : list response;
  stderr : list string
}.

Definition H (A : Type) : Type := handler -> result A * handler.

Definition ret {A} (a : A) : H A := fun h => (Ok a, h).

Definition bind {A B} (m : H A) (k : A -> H B) : H B :=
  fun h => match m h with
           | (Ok a, h') => k a h'
           | (Raise e, h') => (Raise e, h')
           end.

Definition raise {A} (e : exception) : H A := fun h => (Raise e, h).

Definition gets {A} (f : handler -> A) : H A := fun h => (Ok (f h), h).

Definition modify (f : handler -> handler) : H unit := fun h => (Ok tt, f h).

(** [try: m  except <those e with catch e = Some k>: k] *)
Definition try_except {A} (m : H A) (catch : exception -> option (H A)) : H A :=
  fun h => match m h with
           | (Ok a, h') => (Ok a, h')
           | (Raise e, h') =>
               match catch e with
               | Some k => k h'
               | None => (Raise e, h')
               end
           end.

(** [try: m  finally: f] *)
Definition try_finally {A} (m : H A) (f : H unit) : H A :=
  fun h => match m h with
           | (r, h') => match f h' with
                        | (Ok _, h'') => (r, h'')
                        | (Raise e, h'') => (Raise e, h'')
                        end
           end.

Declare Scope handler_scope.
Delimit Scope handler_scope with H.
Notation "x <- m ;; k" := (bind m (fun x => k))
  (at level 61, m at next level, right associativity) : handler_scope.
Notation "m ;; k" := (bind m (fun _ => k))
  (at level 61, right associativity) : handler_scope.
Open Scope handler_scope.

Definition when (b : bool) (m : H unit) : H unit := if b then m else ret tt.

(** Assignments to the attributes of the handler object. *)
Definition with_req (f : request -> request) (h : handler) : handler :=
  mk_handler (directory h) (rfile h) (raw_requestline h) (f (req h))
             (close_connection h) (wfile h) (stderr h).

Definition with_wfile (f : list response -> list response) (h : handler) : handler :=
  mk_handler (directory h) (rfile h) (raw_requestline h) (req h)
             (close_connection h) (f (wfile h)) (stderr h).

(** A change to the reply under way. *)
Definition with_resp (f : response -> response) (h : handler) : handler :=
  with_wfile (fun w => match w with
                       | r :: w' => f r :: w'
                       | [] => [f empty_response]
                       end) h.

Definition set_requestline (v : string) : H unit :=
  modify (with_req (fun r =>
    mk_request v (command r) (path r) (request_version r) (headers r))).

Definition set_command (v : option string) : H unit :=
  modify (with_req (fun r =>
    mk_request (requestline r) v (path r) (request_version r) (headers r))).

Definition set_path (v : string) : H unit :=
  modify (with_req (fun r =>
    mk_request (requestline r) (command r) v (request_version r) (headers r))).

Definition set_request_version (v : string) : H unit :=
  modify (with_req (fun r =>
    mk_request (requestline r) (command r) (path r) v (headers r))).

Definition set_headers (v : list (string * string)) : H unit :=
  modify (with_req (fun r =>
    mk_request (requestline r) (command r) (path r) (request_version r) v)).

Definition set_close_connection (v : bool) : H unit :=
  modify (fun h => mk_handler (directory h) (rfile h) (raw_requestline h) (req h)
                              v (wfile h) (stderr h)).

Definition set_raw_requestline (v : string) : H unit :=
  modify (fun h => mk_handler (directory h) (rfile h) v (req h)
                              (close_connection h) (wfile h) (stderr h)).

Definition set_rfile (v : list string) : H unit :=
  modify (fun h => mk_handler (directory h) v (raw_requestline h) (req h)
                              (close_connection h) (wfile h) (stderr h)).

Definition write_stderr (line : string) : H unit :=
  modify (fun h => mk_handler (directory h) (rfile h) (raw_requestline h) (req h)
                              (close_connection h) (wfile h) (stderr h ++ [line])%list).

(** [self.wfile.write(data)], after the headers *)
Definition wfile_write (data : string) : H unit :=
  modify (with_resp (fun r =>
    mk_response (status r) (reason r) (reply_headers r) (ended r) (body r ++ data))).

(** Class attributes. *)
Definition protocol_version : string := "HTTP/1.0".
Definition default_request_version : string := "HTTP/0.9".
Definition server_version : string := "SimpleHTTP/0.6".
Definition error_content_type : string := "text/html;charset=utf-8".
Definition MAXLINE : N := 65536.
Definition MAXHEADERS : nat := 100.

(** [BaseHTTPRequestHandler.responses], at the codes the handler sends. *)
Definition responses (code : Z) : option (string * string) :=
  (if code =? 100 then Some ("Continue", "Request received, please continue")
   else if code =? 200 then Some ("OK", "Request fulfilled, document follows")
   else if code =? 301 then
     Some ("Moved Permanently", "Object moved permanently -- see URI list")
   else if code =? 304 then
     Some ("Not Modified", "Document has not changed since given time")
   else if code =? 400 then
     Some ("Bad Request", "Bad request syntax or unsupported method")
   else if code =? 404 then Some ("Not Found", "Nothing matches the given URI")
   else if code =? 414 then Some ("Request-URI Too Long", "URI is too long")
   else if code =? 431 then
     Some ("Request Header Fields Too Large",
           "The server is unwilling to process the request because its header fields are too large")
   else if code =? 501 then
     Some ("Not Implemented", "Server does not support this operation")
   else if code =? 505 then
     Some ("HTTP Version Not Supported", "Cannot fulfill request")
   else None)%Z.

(** [name in self.headers] and [self.headers.get(name, default)]: header
    names compare without regard to case, the first match counts. *)
Fixpoint headers_get (name : string) (hs : list (string * string)) : option string :=
  match hs with
  | [] => None
  | (k, v) :: rest =>
      if String.eqb (lower k) (lower name) then Some v else headers_get name rest
  end.

Definition headers_in (name : string) (hs : list (string * string)) : bool :=
  match headers_get name hs with Some _ => true | None => false end.

(** [int(s)] for a string without white space: an optional sign, then
    digits, single underscores allowed between them; no more than 4300
    digits.  [None] stands for [ValueError]. *)
Fixpoint int_digits (acc : Z) (count : N) (after_underscore : bool) (s : string)
  : option Z :=
  match s with
  | EmptyString =>
      if after_underscore || (4300 <? count)%N then None else Some acc
  | String c s' =>
      if isdigit c then
        int_digits (acc * 10 + Z.of_nat (nat_of_ascii c - 48)) (N.succ count) false s'
      else if Ascii.eqb c "_"%char && negb after_underscore then
        int_digits acc count true s'
      else None
  end.

Definition int (s : string) : option Z :=
  match s with
  | String "+"%char s' => int_digits 0 0 true s'
  | String "-"%char s' => option_map Z.opp (int_digits 0 0 true s')
  | _ => int_digits 0 0 true s
  end.

(** The [try] block of [parse_request] on the last word of the request
    line: the text after [HTTP/] and the two numbers, or [None] where the
    block raises [ValueError] or [IndexError]. *)
Definition parse_version (version : string) : option (string * (Z * Z)) :=
  if negb (startswith version "HTTP/") then None
  else match after "/" version with
       | None => None
       | Some base_version_number =>
           match split "." base_version_number with
           | [major; minor] =>
               match int major, int minor with
               | Some a, Some b => Some (base_version_number, (a, b))
               | _, _ => None
               end
           | _ => None
           end
       end.

(** [a >= b] on pairs of integers. *)
Definition version_ge (a b : Z * Z) : bool :=
  ((fst b <? fst a) || ((fst a =? fst b) && (snd b <=? snd a)))%Z.

Inductive read_headers_result : Type :=
| HeaderLines (lines : list string) (rest : list string)
| LineTooLong
| TooManyHeaders.

(** [http.client._read_headers]: lines up to the blank one; [count] is how
    many were read before. *)
Fixpoint read_headers (count : nat) (lines : list string) : read_headers_result :=
  match lines with
  | [] =>
      if (MAXHEADERS <? S count)%nat then TooManyHeaders else HeaderLines [""] []
  | line :: rest =>
      if (MAXLINE <? N.of_nat (String.length line))%N then LineTooLong
      else if (MAXHEADERS <? S count)%nat then TooManyHeaders
      else if String.eqb line (CR ++ LF) || String.eqb line LF || String.eqb line ""
      then HeaderLines [line] rest
      else match read_headers (S count) rest with
           | HeaderLines ls rest' => HeaderLines (line :: ls) rest'
           | err => err
           end
  end.

Definition dq : string := chr 34.

Section Handler.

Context {P : Platform}.

(** The file system, the time of the request and the address of the client,
    which a handler reads but does not change. *)
Variable root : os.node.
Variable now : Z.
Variable client_address : string.

(** *** [BaseHTTPRequestHandler] *)

Definition log_message (message : string) : H unit :=
  write_stderr (log_line client_address now message).

Definition log_request (code : Z) : H unit :=
  r <- gets req ;;
  log_message (dq ++ requestline r ++ dq ++ " " ++ str (Z.to_N code) ++ " -").

Definition log_error (message : string) : H unit := log_message message.

Definition version_string : string := server_version ++ " " ++ sys_version.

Definition date_time_string (timestamp : Z) : string := formatdate timestamp.

(** A status line opens a reply.  The test [self.request_version !=
    'HTTP/0.9'] that guards the headers buffer in [send_response_only],
    [send_header] and [end_headers] is made once, in [wire] below: a reply
    is recorded as built, and [wire] says what of it reaches the client. *)
Definition send_response_only (code : Z) (message : option string) : H unit :=
  let message :=
    match message with
    | Some m => m
    | None => match responses code with Some (m, _) => m | None => "" end
    end in
  modify (with_wfile (cons (mk_response (Some code) message [] false ""))).

Definition send_header (keyword value : string) : H unit :=
  modify (with_resp (fun r =>
    mk_response (status r) (reason r) (reply_headers r ++ [(keyword, value)])%list
                (ended r) (body r))) ;;
  when (String.eqb (lower keyword) "connection")
       (if String.eqb (lower value) "close" then set_close_connection true
        else when (String.eqb (lower value) "keep-alive") (set_close_connection false)).

Definition end_headers : H unit :=
  modify (with_resp (fun r =>
    mk_response (status r) (reason r) (reply_headers r) true (body r))).

Definition send_response (code : Z) (message : option string) : H unit :=
  log_request code ;;
  send_response_only code message ;;
  send_header "Server" version_string ;;
  send_header "Date" (date_time_string now).

Definition send_error (code : Z) (message explain : option string) : H unit :=
  let '(shortmsg, longmsg) :=
    match responses code with Some sl => sl | None => ("???", "???") end in
  let message := match message with Some m => m | None => shortmsg end in
  let explain := match explain with Some e => e | None => longmsg end in
  log_error ("code " ++ str (Z.to_N code) ++ ", message " ++ message) ;;
  send_response code (Some message) ;;
  send_header "Connection" "close" ;;
  body <- (if (200 <=? code)%Z
              && negb ((code =? 204) || (code =? 205) || (code =? 304))%Z
           then
             let body := error_page code message explain in
             send_header "Content-Type" error_content_type ;;
             send_header "Content-Length" (str (N.of_nat (String.length body))) ;;
             ret (Some body)
           else ret None) ;;
  end_headers ;;
  r <- gets req ;;
  match body with
  | Some b =>
      when (negb (match command r with Some "HEAD" => true | _ => false end)
            && negb (is_empty b))
           (wfile_write b)
  | None => ret tt
  end.

Definition handle_expect_100 : H bool :=
  send_response_only 100 None ;;
  end_headers ;;
  ret true.

(** [parse_request], from the request line on: the part that follows the
    version.  [words] is [requestline.split()]. *)
Definition parse_request_headers : H bool :=
  lines <- gets rfile ;;
  match read_headers 0 lines with
  | LineTooLong =>
      send_error 431 (Some "Line too long")
                 (Some "got more than 65536 bytes when reading header line") ;;
      ret false
  | TooManyHeaders =>
      send_error 431 (Some "Too many headers")
                 (Some "got more than 100 headers") ;;
      ret false
  | HeaderLines ls rest =>
      set_rfile rest ;;
      set_headers (parse_header_lines ls) ;;
      r <- gets req ;;
      let conntype :=
        match headers_get "Connection" (headers r) with Some v => v | None => "" end in
      (if String.eqb (lower conntype) "close" then set_close_connection true
       else when (String.eqb (lower conntype) "keep-alive"
                  && ge protocol_version "HTTP/1.1")
                 (set_close_connection false)) ;;
      let expect :=
        match headers_get "Expect" (headers r) with Some v => v | None => "" end in
      if String.eqb (lower expect) "100-continue"
         && ge protocol_version "HTTP/1.1"
         && ge (request_version r) "HTTP/1.1"
      then ok <- handle_expect_100 ;; ret ok
      else ret true
  end.

Definition parse_request : H bool :=
  set_command None ;;
  set_request_version default_request_version ;;
  set_close_connection true ;;
  raw <- gets raw_requestline ;;
  let requestline := rstrip is_crlf raw in
  set_requestline requestline ;;
  let words := words requestline in
  if (length words =? 0)%nat then ret false
  else
    ok <- (if (3 <=? length words)%nat then
             let version := last words "" in
             match parse_version version with
             | None =>
                 send_error 400
                   (Some ("Bad request version (" ++ repr version ++ ")")) None ;;
                 ret false
             | Some (base_version_number, version_number) =>
                 when (version_ge version_number (1, 1)%Z
                       && ge protocol_version "HTTP/1.1")
                      (set_close_connection false) ;;
                 if version_ge version_number (2, 0)%Z then
                   send_error 505
                     (Some ("Invalid HTTP version (" ++ base_version_number ++ ")"))
                     None ;;
                   ret false
                 else set_request_version version ;; ret true
             end
           else ret true) ;;
    if negb ok then ret false
    else if negb ((2 <=? length words)%nat && (length words <=? 3)%nat) then
      send_error 400 (Some ("Bad request syntax (" ++ repr requestline ++ ")")) None ;;
      ret false
    else
      let command := nth 0 words "" in
      let path := nth 1 words "" in
      ok <- (if (length words =? 2)%nat then
               set_close_connection true ;;
               if negb (String.eqb command "GET") then
                 send_error 400
                   (Some ("Bad HTTP/0.9 request type (" ++ repr command ++ ")")) None ;;
                 ret false
               else ret true
             else ret true) ;;
      if negb ok then ret false
      else
        set_command (Some command) ;;
        set_path path ;;
        when (startswith path "//")
             (set_path ("/" ++ lstrip (Ascii.eqb "/"%char) path)) ;;
        parse_request_headers.

(** *** [SimpleHTTPRequestHandler] *)

Definition translate_path (directory path : string) : string :=
  let path := before "?" path in
  let path := before "#" path in
  let trailing_slash := endswith (rstrip isspace path) "/" in
  let path := unquote path in
  let path := posixpath.normpath path in
  let words := split "/" path in
  let words := filter (fun w => negb (is_empty w)) words in
  let path :=
    fold_left
      (fun path word =>
         if negb (is_empty (posixpath.dirname word))
            || String.eqb word posixpath.curdir || String.eqb word posixpath.pardir
         then path
         else posixpath.join path word)
      words directory in
  if trailing_slash then path ++ "/" else path.

(** [list.sort(key=lambda a: a.lower())]: a stable sort. *)
Fixpoint insert_by_lower (x : string) (l : list string) : list string :=
  match l with
  | [] => [x]
  | y :: l' =>
      if String.ltb (lower x) (lower y) then x :: l else y :: insert_by_lower x l'
  end.

Definition sort_by_lower (l : list string) : list string :=
  fold_left (fun acc x => insert_by_lower x acc) l [].

(** The result of [list_directory] and [send_head] is the file object to
    copy to the client, here its bytes, or [None]. *)
Definition list_directory (path : string) : H (option string) :=
  match os.listdir root path with
  | None =>
      send_error 404 (Some "No permission to list directory") None ;;
      ret None
  | Some list =>
      let list := sort_by_lower list in
      r <- gets req ;;
      let displaypath := unquote (http_server.path r) in
      let shown :=
        map (fun name =>
               let fullname := posixpath.join path name in
               if os.isdir root fullname then name ++ "/" else name)
            list in
      let encoded := listing_page displaypath shown in
      send_response 200 None ;;
      send_header "Content-type" ("text/html; charset=" ++ fs_encoding) ;;
      send_header "Content-Length" (str (N.of_nat (String.length encoded))) ;;
      end_headers ;;
      ret (Some encoded)
  end.

(** The test [send_head] makes to use the browser's cache: the request
    has [If-Modified-Since] and no [If-None-Match], the date parses, and the
    file was last modified no later. *)
Definition not_modified (headers : list (string * string)) (mtime : Z) : bool :=
  if headers_in "If-Modified-Since" headers
     && negb (headers_in "If-None-Match" headers)
  then match headers_get "If-Modified-Since" headers with
       | Some v =>
           match parsedate_utc v with
           | Some ims => (mtime <=? ims)%Z
           | None => false
           end
       | None => false
       end
  else false.

(** [send_head] from [ctype = self.guess_type(path)] on. *)
Definition send_head_file (path : string) : H (option string) :=
  let ctype := guess_type path in
  if endswith path "/" then
    send_error 404 (Some "File not found") None ;;
    ret None
  else
    match os.open root path with
    | None =>
        send_error 404 (Some "File not found") None ;;
        ret None
    | Some (data, mtime) =>
        r <- gets req ;;
        if not_modified (headers r) mtime then
          send_response 304 None ;;
          end_headers ;;
          ret None
        else
          send_response 200 None ;;
          send_header "Content-type" ctype ;;
          send_header "Content-Length" (str (N.of_nat (String.length data))) ;;
          send_header "Last-Modified" (date_time_string mtime) ;;
          end_headers ;;
          ret (Some data)
    end.

Definition send_head : H (option string) :=
  r <- gets req ;;
  d <- gets directory ;;
  let path := translate_path d (http_server.path r) in
  if os.isdir root path then
    match urlsplit_path (http_server.path r) with
    | None => raise ValueError
    | Some parts_path =>
        if negb (endswith parts_path "/") then
          send_response 301 None ;;
          send_header "Location" (redirect_url (http_server.path r)) ;;
          send_header "Content-Length" "0" ;;
          end_headers ;;
          ret None
        else
          let index := posixpath.join path "index.html" in
          if os.isfile root index then send_head_file index
          else
            let index := posixpath.join path "index.htm" in
            if os.isfile root index then send_head_file index
            else list_directory path
    end
  else send_head_file path.

Definition do_GET : H unit :=
  f <- send_head ;;
  match f with
  | Some data => wfile_write data
  | None => ret tt
  end.

Definition do_HEAD : H unit :=
  f <- send_head ;;
  ret tt.

(** [getattr(self, 'do_' + command)], [None] where [hasattr] is false: the
    class defines [do_GET] and [do_HEAD] and no other such method. *)
Definition method_of (command : string) : option (H unit) :=
  if String.eqb command "GET" then Some do_GET
  else if String.eqb command "HEAD" then Some do_HEAD
  else None.

(** *** Handling a connection *)

(** What goes wrong on the connection while the request line is read, if
    anything does. *)
Variable fault : option exception.

(** [self.rfile.readline(65537)] for the request line; the empty string at
    the end of the input. *)
Definition readline : H string :=
  match fault with
  | Some e => raise e
  | None =>
      lines <- gets rfile ;;
      match lines with
      | [] => ret ""
      | line :: rest => set_rfile rest ;; ret line
      end
  end.

Definition handle_one_request : H unit :=
  try_except
    (raw <- readline ;;
     set_raw_requestline raw ;;
     if (65536 <? N.of_nat (String.length raw))%N then
       set_requestline "" ;;
       set_request_version "" ;;
       set_command (Some "") ;;
       send_error 414 None None
     else if is_empty raw then
       set_close_connection true
     else
       ok <- parse_request ;;
       if negb ok then ret tt
       else
         r <- gets req ;;
         let command := match command r with Some c => c | None => "" end in
         match method_of command with
         | None =>
             send_error 501
               (Some ("Unsupported method (" ++ repr command ++ ")")) None
         | Some method => method
         end)
    (fun e => match e with
              | TimeoutError =>
                  Some (log_error ("Request timed out: " ++ "TimeoutError('timed out')") ;;
                        set_close_connection true)
              | _ => None
              end).

(** The [while not self.close_connection] of [handle]; each turn reads a
    line or meets the end of the input, so one turn more than there are
    lines is all there can be. *)
Fixpoint handle_more (turns : nat) : H unit :=
  match turns with
  | O => ret tt
  | S n =>
      closed <- gets close_connection ;;
      if closed then ret tt
      else handle_one_request ;; handle_more n
  end.

Definition handle : H unit :=
  set_close_connection true ;;
  handle_one_request ;;
  lines <- gets rfile ;;
  handle_more (S (length lines)).

(** [StreamRequestHandler.finish] flushes and closes the two files. *)
Definition finish : H unit := ret tt.

(** [BaseRequestHandler.__init__], after [setup]. *)
Definition init : H unit := try_finally handle finish.

End Handler.

(** The handler object as [__init__] finds it: [directory] is
    [os.getcwd()], [lines] is what the client sent. *)
Definition new_handler (cwd : string) (lines : list string) : handler :=
  mk_handler cwd lines "" (mk_request "" None "" "" []) false [] [].

(** What a reply puts on the wire: the status line and the headers unless
    the request was without a version (or asked for [HTTP/0.9]), then the
    body. *)
Definition wire (request_version : string) (r : response) : list string :=
  let status_line :=
    match status r with
    | Some code =>
        [protocol_version ++ " " ++ str (Z.to_N code) ++ " " ++ reason r ++ CR ++ LF]
    | None => []
    end in
  let header_lines :=
    map (fun kv => fst kv ++ ": " ++ snd kv ++ CR ++ LF) (reply_headers r) in
  let blank_line := if ended r then [CR ++ LF] else [] in
  let head :=
    if negb (String.eqb request_version "HTTP/0.9")
    then app status_line (app header_lines blank_line)
    else [] in
  app head (if is_empty (body r) then [] else [body r]).

End http_server.

(** ** The process and its surroundings *)

(** A connection a client opens: its address, the time, the lines it
    sends and what goes wrong while the first is read, if anything. *)
Record connection : Type := mk_connection {
  peer : string;
  time : Z;
  lines : list string;
  fault : option exception
}.

(** What [selector.select] in the serving loop meets, in order. *)
Inductive event : Type :=
| Connect (c : connection)   (* the socket is readable, [accept] gives [c] *)
| AcceptFails (e : oserror)  (* the socket is readable, [accept] raises *)
| Idle                       (* the poll interval passes *)
| Interrupt.                 (* SIGINT: [KeyboardInterrupt] is raised *)

(** What the process does that can be seen from outside, oldest first. *)
Inductive action : Type :=
| Bind (host : string) (port : Z) (error : option oserror)
| Listen
| Stdout (text : string)
| Stderr (text : string)
| Accept (peer : string)
| Replies (peer : string) (replies : list http_server.response)
| CloseRequest (peer : string)
| CloseSocket.

Record world : Type := mk_world {
  fs : os.node;                 (* the file system *)
  cwd : string;                 (* [os.getcwd()] *)
  in_use : list Z;              (* ports some socket is bound to *)
  bind_refused : option oserror;(* what else [bind] fails with, if it does *)
  input : list event;           (* what [select] will meet *)
  shutdown_requested : bool;    (* [httpd._BaseServer__shutdown_request] *)
  trace : list action
}.

(** The outcome of a statement: it completes, raises, or never completes
    because the process waits in [select] for ever (the events ran out). *)
Inductive outcome (A : Type) : Type :=
| Returned (a : A)
| Raised (e : exception)
| Blocked.
Arguments Returned {A} a.
Arguments Raised {A} e.
Arguments Blocked {A}.

Module Py.

Definition M (A : Type) : Type := world -> outcome A * world.

Definition ret {A} (a : A) : M A := fun w => (Returned a, w).

Definition bind {A B} (m : M A) (k : A -> M B) : M B :=
  fun w => match m w with
           | (Returned a, w') => k a w'
           | (Raised e, w') => (Raised e, w')
           | (Blocked, w') => (Blocked, w')
           end.

Definition raise {A} (e : exception) : M A := fun w => (Raised e, w).

Definition gets {A} (f : world -> A) : M A := fun w => (Returned (f w), w).

Definition modify (f : world -> world) : M unit := fun w => (Returned tt, f w).

(** [try: m  except: k e] where [catches e]; others pass. *)
Definition try_except {A} (m : M A) (catches : exception -> bool)
           (k : exception -> M A) : M A :=
  fun w => match m w with
           | (Raised e, w') => if catches e then k e w' else (Raised e, w')
           | other => other
           end.

(** [try: m  finally: f] *)
Definition try_finally {A} (m : M A) (f : M unit) : M A :=
  fun w => match m w with
           | (Blocked, w') => (Blocked, w')
           | (r, w') =>
               match f w' with
               | (Returned _, w'') => (r, w'')
               | (Raised e, w'') => (Raised e, w'')
               | (Blocked, w'') => (Blocked, w'')
               end
           end.

(** [with mgr as x: body x], for a manager whose [__enter__] returns itself
    and whose [__exit__] returns [None]: an exception of the body passes
    once [__exit__] has run. *)
Definition with_ {S A} (mgr : M S) (exit : S -> M unit) (body : S -> M A) : M A :=
  bind mgr (fun x => try_finally (body x) (exit x)).

End Py.

Declare Scope py_scope.
Delimit Scope py_scope with py.
Notation "x <- m ;; k" := (Py.bind m (fun x => k))
  (at level 61, m at next level, right associativity) : py_scope.
Notation "m ;; k" := (Py.bind m (fun _ => k))
  (at level 61, right associativity) : py_scope.

Definition emit (a : action) : Py.M unit :=
  Py.modify (fun w => mk_world (fs w) (cwd w) (in_use w) (bind_refused w) (input w)
                               (shutdown_requested w) (trace w ++ [a])).

Definition set_in_use (ports : list Z) : Py.M unit :=
  Py.modify (fun w => mk_world (fs w) (cwd w) ports (bind_refused w) (input w)
                               (shutdown_requested w) (trace w)).

Definition set_input (events : list event) : Py.M unit :=
  Py.modify (fun w => mk_world (fs w) (cwd w) (in_use w) (bind_refused w) events
                               (shutdown_requested w) (trace w)).

Definition set_shutdown_request (v : bool) : Py.M unit :=
  Py.modify (fun w => mk_world (fs w) (cwd w) (in_use w) (bind_refused w) (input w)
                               v (trace w)).

(** [print(text)] *)
Definition print (text : string) : Py.M unit := emit (Stdout (text ++ PyStr.LF)).

(** ** [socketserver] *)

Module socketserver.
Import http_server.

Open Scope py_scope.

(** A request handler class: what constructing it on a connection does,
    given the file system and the working directory. *)
Definition RequestHandlerClass : Type :=
  os.node -> string -> connection -> result unit * handler.

(** The server object; [bound] says whether its socket holds the port. *)
Record TCPServer_object : Type := mk_TCPServer {
  server_address : string * Z;
  Handler_class : RequestHandlerClass;
  bound : bool
}.

Definition port_in_use (port : Z) (ports : list Z) : bool :=
  existsb (Z.eqb port) ports.

(** [self.socket.bind(self.server_address)] *)
Definition socket_bind (address : string * Z) : Py.M unit :=
  ports <- Py.gets in_use ;;
  refused <- Py.gets bind_refused ;;
  if port_in_use (snd address) ports then
    emit (Bind (fst address) (snd address) (Some EADDRINUSE)) ;;
    Py.raise (OSError EADDRINUSE)
  else match refused with
       | Some e =>
           emit (Bind (fst address) (snd address) (Some e)) ;;
           Py.raise (OSError e)
       | None =>
           emit (Bind (fst address) (snd address) None) ;;
           set_in_use (snd address :: ports)
       end.

Definition server_bind (self : TCPServer_object) : Py.M TCPServer_object :=
  socket_bind (server_address self) ;;
  Py.ret (mk_TCPServer (server_address self) (Handler_class self) true).

Definition server_activate (self : TCPServer_object) : Py.M unit :=
  emit Listen.

(** [self.socket.close()]: the port is free again if the socket held it. *)
Definition server_close (self : TCPServer_object) : Py.M unit :=
  emit CloseSocket ;;
  if bound self then
    ports <- Py.gets in_use ;;
    set_in_use (filter (fun p => negb (Z.eqb p (snd (server_address self)))) ports)
  else Py.ret tt.

(** [TCPServer.__init__], with [bind_and_activate=True] *)
Definition TCPServer (server_address : string * Z) (Handler : RequestHandlerClass)
  : Py.M TCPServer_object :=
  set_shutdown_request false ;;
  let self := mk_TCPServer server_address Handler false in
  Py.try_except
    (self <- server_bind self ;;
     server_activate self ;;
     Py.ret self)
    (fun _ => true)
    (fun e => server_close self ;; Py.raise e).

(** [__exit__] *)
Definition exit (self : TCPServer_object) : Py.M unit := server_close self.

(** [handle_error]: the traceback of the exception, between two rules. *)
Definition handle_error (c : connection) (e : exception) : Py.M unit :=
  emit (Stderr "----------------------------------------") ;;
  emit (Stderr ("Exception occurred during processing of request from " ++ peer c)) ;;
  emit (Stderr "Traceback (most recent call last):") ;;
  emit (Stderr "----------------------------------------").

Definition shutdown_request (c : connection) : Py.M unit :=
  emit (CloseRequest (peer c)).

(** [finish_request]: the handler class is constructed on the connection;
    what it logged and what it wrote show, whatever the end. *)
Definition finish_request (self : TCPServer_object) (c : connection) : Py.M unit :=
  root <- Py.gets fs ;;
  directory <- Py.gets cwd ;;
  let '(r, h) := Handler_class self root directory c in
  fold_right (fun line k => emit (Stderr line) ;; k) (Py.ret tt) (stderr h) ;;
  emit (Replies (peer c) (rev (wfile h))) ;;
  match r with
  | Ok _ => Py.ret tt
  | Raise e => Py.raise e
  end.

Definition process_request (self : TCPServer_object) (c : connection) : Py.M unit :=
  finish_request self c ;;
  shutdown_request c.

Definition verify_request (self : TCPServer_object) (c : connection) : bool := true.

(** [_handle_request_noblock]; [accepted] is what [get_request] gives: a
    connection, or the [OSError] it raises. *)
Definition handle_request_noblock (self : TCPServer_object)
           (accepted : oserror + connection) : Py.M unit :=
  match accepted with
  | inl _ => Py.ret tt
  | inr c =>
      emit (Accept (peer c)) ;;
      if verify_request self c then
        Py.try_except (process_request self c)
          (fun _ => true)
          (fun e =>
             if is_Exception e then handle_error c e ;; shutdown_request c
             else shutdown_request c ;; Py.raise e)
      else shutdown_request c
  end.

Definition service_actions (self : TCPServer_object) : Py.M unit := Py.ret tt.

(** The [while not self.__shutdown_request] of [serve_forever], one turn for
    each event; when the events run out the process waits in [select]. *)
Fixpoint serve_loop (self : TCPServer_object) (events : list event) : Py.M unit :=
  stop <- Py.gets shutdown_requested ;;
  if stop then Py.ret tt
  else
    match events with
    | [] => fun w => (Blocked, w)
    | ev :: rest =>
        set_input rest ;;
        match ev with
        | Interrupt => Py.raise KeyboardInterrupt
        | _ =>
            stop <- Py.gets shutdown_requested ;;
            if stop then Py.ret tt
            else
              match ev with
              | Connect c => handle_request_noblock self (inr c)
              | AcceptFails e => handle_request_noblock self (inl e)
              | _ => Py.ret tt
              end ;;
              service_actions self ;;
              serve_loop self rest
        end
    end.

Definition serve_forever (self : TCPServer_object) : Py.M unit :=
  Py.try_finally
    (events <- Py.gets input ;; serve_loop self events)
    (set_shutdown_request false).

End socketserver.

(** ** simple_server.py *)

Definition PORT : Z := 8000.

(** [http.server.SimpleHTTPRequestHandler]: its constructor takes the
    working directory as [directory] and handles the connection. *)
Definition SimpleHTTPRequestHandler {P : Platform} : socketserver.RequestHandlerClass :=
  fun root cwd c =>
    http_server.init root (time c) (peer c) (fault c)
                     (http_server.new_handler cwd (lines c)).

Definition Handler {P : Platform} : socketserver.RequestHandlerClass :=
  SimpleHTTPRequestHandler.

Open Scope py_scope.

(** The module, run as a script with the command line and the environment
    it is given. *)
Definition main {P : Platform} (argv : list string) (environ : list (string * string))
  : Py.M unit :=
  Py.with_ (socketserver.TCPServer ("", PORT) Handler) socketserver.exit
    (fun httpd =>
       print "good morning" ;;
       socketserver.serve_forever httpd).

(** ** The interpreter *)

Inductive process_state : Type :=
| Running
| Exited (status : Z).

(** The name under which the traceback ends. *)
Definition exception_name (e : exception) : string :=
  match e with
  | KeyboardInterrupt => "KeyboardInterrupt"
  | OSError EADDRINUSE => "OSError: [Errno 98] Address already in use"
  | OSError EACCES => "PermissionError: [Errno 13] Permission denied"
  | OSError EADDRNOTAVAIL => "OSError: [Errno 99] Cannot assign requested address"
  | ConnectionResetError => "ConnectionResetError: [Errno 104] Connection reset by peer"
  | TimeoutError => "TimeoutError: timed out"
  | ValueError => "ValueError"
  end.

(** What [python simple_server.py] ends with: status 0 when the module runs
    to its end; an exception that nothing catches gets its traceback on
    standard error and status 1, or, for [KeyboardInterrupt], the death by
    SIGINT that a shell reports as 130. *)
Definition exit_status (e : exception) : Z :=
  match e with
  | KeyboardInterrupt => 130
  | _ => 1
  end.

Definition python {P : Platform} (argv : list string) (environ : list (string * string))
           (w : world) : process_state * world :=
  match main argv environ w with
  | (Returned _, w') => (Exited 0, w')
  | (Raised e, w') =>
      let '(_, w'') :=
        (emit (Stderr "Traceback (most recent call last):") ;;
         emit (Stderr (exception_name e))) w' in
      (Exited (exit_status e), w'')
  | (Blocked, w') => (Running, w')
  end.

(** ** A platform

    An instance of the interface, to run the model on examples.  It follows
    the library on the inputs the examples use: percent escapes are decoded
    byte by byte, a URL is split as one that starts with a single slash is,
    dates are those of RFC 1123, [repr] puts the string between single
    quotes. *)

Module Posix.
Import PyStr.

Definition hexval (c : ascii) : option nat :=
  let n := nat_of_ascii c in
  if ((48 <=? n) && (n <=? 57))%nat then Some (n - 48)%nat
  else if ((65 <=? n) && (n <=? 70))%nat then Some (n - 55)%nat
  else if ((97 <=? n) && (n <=? 102))%nat then Some (n - 87)%nat
  else None.

Fixpoint unquote (s : string) : string :=
  match s with
  | EmptyString => EmptyString
  | String c s' =>
      if Ascii.eqb c "%"%char then
        match s' with
        | String a (String b rest) =>
            match hexval a, hexval b with
            | Some x, Some y => String (ascii_of_nat (16 * x + y)) (unquote rest)
            | _, _ => String c (unquote s')
            end
        | _ => String c (unquote s')
        end
      else String c (unquote s')
  end.

Definition urlsplit_path (url : string) : option string :=
  Some (before "?" (before "#" url)).

Definition redirect_url (url : string) : string :=
  let fragment := after "#" url in
  let url := before "#" url in
  let query := after "?" url in
  let url := before "?" url ++ "/" in
  let url := match query with
             | Some q => if is_empty q then url else url ++ "?" ++ q
             | None => url
             end in
  match fragment with
  | Some f => if is_empty f then url else url ++ "#" ++ f
  | None => url
  end.

Definition guess_type (path : string) : string :=
  if endswith path ".html" || endswith path ".htm" then "text/html"
  else if endswith path ".txt" then "text/plain"
  else "application/octet-stream".

(** Days since 1970-01-01 of a date, and back. *)
Definition days_from_civil (y m d : Z) : Z :=
  let y := if (m <=? 2)%Z then (y - 1)%Z else y in
  let era := (y / 400)%Z in
  let yoe := (y - era * 400)%Z in
  let mp := ((m + 9) mod 12)%Z in
  let doy := ((153 * mp + 2) / 5 + d - 1)%Z in
  let doe := (yoe * 365 + yoe / 4 - yoe / 100 + doy)%Z in
  (era * 146097 + doe - 719468)%Z.

Definition civil_from_days (z : Z) : Z * Z * Z :=
  let z := (z + 719468)%Z in
  let era := (z / 146097)%Z in
  let doe := (z - era * 146097)%Z in
  let yoe := ((doe - doe / 1460 + doe / 36524 - doe / 146096) / 365)%Z in
  let doy := (doe - (365 * yoe + yoe / 4 - yoe / 100))%Z in
  let mp := ((5 * doy + 2) / 153)%Z in
  let d := (doy - (153 * mp + 2) / 5 + 1)%Z in
  let m := (if mp <? 10 then mp + 3 else mp - 9)%Z in
  let y := (yoe + era * 400 + (if m <=? 2 then 1 else 0))%Z in
  (y, m, d).

Definition monthnames : list string :=
  ["Jan"; "Feb"; "Mar"; "Apr"; "May"; "Jun"; "Jul"; "Aug"; "Sep"; "Oct"; "Nov"; "Dec"].

Definition daynames : list string :=
  ["Thu"; "Fri"; "Sat"; "Sun"; "Mon"; "Tue"; "Wed"].

Fixpoint index_of (x : string) (l : list string) : option Z :=
  match l with
  | [] => None
  | y :: l' => if String.eqb x y then Some 0%Z else option_map Z.succ (index_of x l')
  end.

Definition two (n : Z) : string :=
  (if (n <? 10)%Z then "0" else "") ++ str (Z.to_N n).

Definition formatdate (t : Z) : string :=
  let days := (t / 86400)%Z in
  let secs := (t mod 86400)%Z in
  let '(y, m, d) := civil_from_days days in
  nth (Z.to_nat (days mod 7)) daynames "" ++ ", " ++ two d ++ " "
  ++ nth (Z.to_nat (m - 1)) monthnames "" ++ " " ++ str (Z.to_N y) ++ " "
  ++ two (secs / 3600) ++ ":" ++ two (secs mod 3600 / 60) ++ ":" ++ two (secs mod 60)
  ++ " GMT".

(** A date such as [Sun, 06 Nov 1994 08:49:37 GMT]. *)
Definition parsedate_utc (s : string) : option Z :=
  match words s with
  | [_; d; mon; y; hms; zone] =>
      match http_server.int d, index_of mon monthnames, http_server.int y,
            split ":" hms with
      | Some d, Some m, Some y, [hh; mm; ss] =>
          match http_server.int hh, http_server.int mm, http_server.int ss with
          | Some hh, Some mm, Some ss =>
              if String.eqb zone "GMT" then
                Some (days_from_civil y (m + 1) d * 86400 + hh * 3600 + mm * 60 + ss)%Z
              else None
          | _, _, _ => None
          end
      | _, _, _, _ => None
      end
  | _ => None
  end.

Definition strip (s : string) : string := lstrip isspace (rstrip isspace s).

Fixpoint parse_header_lines (ls : list string) : list (string * string) :=
  match ls with
  | [] => []
  | line :: rest =>
      match after ":" line with
      | Some value => (before ":" line, strip value) :: parse_header_lines rest
      | None => parse_header_lines rest
      end
  end.

(** [html.escape(s, quote=False)] *)
Fixpoint escape (s : string) : string :=
  match s with
  | EmptyString => EmptyString
  | String c s' =>
      (if Ascii.eqb c "&"%char then "&amp;"
       else if Ascii.eqb c "<"%char then "&lt;"
       else if Ascii.eqb c ">"%char then "&gt;"
       else String c EmptyString) ++ escape s'
  end.

Definition error_page (code : Z) (message explain : string) : string :=
  String.concat LF
    ["<!DOCTYPE HTML>";
     "<html lang=" ++ http_server.dq ++ "en" ++ http_server.dq ++ ">";
     "    <head>";
     "        <meta charset=" ++ http_server.dq ++ "utf-8" ++ http_server.dq ++ ">";
     "        <title>Error response</title>";
     "    </head>";
     "    <body>";
     "        <h1>Error response</h1>";
     "        <p>Error code: " ++ str (Z.to_N code) ++ "</p>";
     "        <p>Message: " ++ escape message ++ ".</p>";
     "        <p>Error code explanation: " ++ str (Z.to_N code) ++ " - "
       ++ escape explain ++ ".</p>";
     "    </body>";
     "</html>";
     ""].

Definition listing_page (displaypath : string) (shown : list string) : string :=
  let title := "Directory listing for " ++ escape displaypath in
  let item name :=
    "<li><a href=" ++ http_server.dq ++ name ++ http_server.dq ++ ">"
    ++ escape name ++ "</a></li>" in
  String.concat LF
    (app ["<!DOCTYPE HTML>"; "<html>"; "<head>"; "<title>" ++ title ++ "</title>";
          "</head>"; "<body>"; "<h1>" ++ title ++ "</h1>"; "<hr>"; "<ul>"]
         (app (map item shown) ["</ul>"; "<hr>"; "</body>"; "</html>"; ""])).

Definition repr (s : string) : string := "'" ++ s ++ "'".

Definition log_line (client : string) (now : Z) (message : string) : string :=
  client ++ " - - [" ++ formatdate now ++ "] " ++ message ++ LF.

End Posix.

#[export] Instance posix_platform : Platform.
Proof.
  refine {| unquote := Posix.unquote;
            unquote_plain := _;
            urlsplit_path := Posix.urlsplit_path;
            urlsplit_root := eq_refl;
            redirect_url := Posix.redirect_url;
            guess_type := Posix.guess_type;
            parsedate_utc := Posix.parsedate_utc;
            formatdate := Posix.formatdate;
            parse_header_lines := Posix.parse_header_lines;
            error_page := Posix.error_page;
            listing_page := Posix.listing_page;
            fs_encoding := "utf-8";
            sys_version := "Python/3.11.2";
            repr := Posix.repr;
            log_line := Posix.log_line |}.
  induction s as [|c s IH]; simpl; [reflexivity|].
  destruct (Ascii.eqb c "%"); simpl; [discriminate|].
  intros Hs. rewrite (IH Hs). reflexivity.
Defined.
(** ** What the claims speak of *)

(** Whether [bind] on port 8000 fails in a world, and with what. *)
Definition bind_error (w : world) : option oserror :=
  if socketserver.port_in_use PORT (in_use w) then Some EADDRINUSE
  else bind_refused w.

(** An event that no [except Exception] stops: SIGINT while the loop waits,
    or while a connection is handled. *)
Definition interrupts (ev : event) : bool :=
  match ev with
  | Interrupt => true
  | Connect c => match fault c with
                 | Some e => negb (is_Exception e)
                 | None => false
                 end
  | _ => false
  end.

Fixpoint connections (events : list event) : list connection :=
  match events with
  | [] => []
  | Connect c :: rest => c :: connections rest
  | _ :: rest => connections rest
  end.

(** The lines written to standard output, and the replies sent, connection
    by connection, in a trace. *)
Fixpoint stdout_of (t : list action) : list string :=
  match t with
  | [] => []
  | Stdout text :: rest => text :: stdout_of rest
  | _ :: rest => stdout_of rest
  end.

Fixpoint replies_in (t : list action) : list (list http_server.response) :=
  match t with
  | [] => []
  | Replies _ rs :: rest => rs :: replies_in rest
  | _ :: rest => replies_in rest
  end.

(** The addresses the process asked to bind, in a trace. *)
Fixpoint binds_of (t : list action) : list (string * Z) :=
  match t with
  | [] => []
  | Bind host port _ :: rest => (host, port) :: binds_of rest
  | _ :: rest => binds_of rest
  end.

(** An action of the serving loop. *)
Definition serving (a : action) : bool :=
  match a with
  | Accept _ | Replies _ _ | CloseRequest _ | Stderr _ => true
  | _ => false
  end.

(** The replies a connection gets from the handler, first to last. *)
Definition answers {P : Platform} (root : os.node) (cwd : string) (c : connection)
  : list http_server.response :=
  rev (http_server.wfile (snd (Handler root cwd c))).

(** The request the handler works on: the state of the handler object once
    [parse_request] has accepted what the connection sent. *)
Definition request_of {P : Platform} (cwd : string) (c : connection)
  : option http_server.request :=
  match fault c with
  | Some _ => None
  | None =>
      let raw := hd "" (lines c) in
      if (65536 <? N.of_nat (String.length raw))%N || PyStr.is_empty raw then None
      else
        let h := http_server.mk_handler cwd (tl (lines c)) raw
                   (http_server.mk_request "" None "" "" []) true [] [] in
        match http_server.parse_request (time c) (peer c) h with
        | (Ok true, h') => Some (http_server.req h')
        | _ => None
        end
  end.


(** A world in which the process has done some more. *)
Definition extend (w : world) (t : list action) : world :=
  mk_world (fs w) (cwd w) (in_use w) (bind_refused w) (input w)
           (shutdown_requested w) (trace w ++ t)%list.

(** What the server does for one connection it accepts, in a file system
    and a working directory: the actions that [_handle_request_noblock] adds
    to the trace. *)
Definition handling (self : socketserver.TCPServer_object) (root : os.node)
           (cwd : string) (c : connection) : list action :=
  trace (snd (socketserver.handle_request_noblock self (inr c)
                (mk_world root cwd [] None [] false []))).

(** And for one event of the serving loop. *)
Definition served (self : socketserver.TCPServer_object) (root : os.node)
           (cwd : string) (ev : event) : list action :=
  match ev with
  | Connect c => handling self root cwd c
  | _ => []
  end.

(** Whether an event ends the serving loop: SIGINT, or a connection whose
    handler ends in an exception that [except Exception] lets pass. *)
Definition stops (self : socketserver.TCPServer_object) (root : os.node)
           (cwd : string) (ev : event) : bool :=
  match ev with
  | Interrupt => true
  | Connect c =>
      match fst (socketserver.Handler_class self root cwd c) with
      | Raise e => negb (is_Exception e)
      | Ok _ => false
      end
  | _ => false
  end.

(** The server object of the script, once bound. *)
Definition httpd {P : Platform} : socketserver.TCPServer_object :=
  socketserver.mk_TCPServer ("", PORT) Handler true.

(** What is at the working directory, with all that is below it. *)
Definition os_subtree (root : os.node) (cwd : string) : option os.node :=
  option_map snd (os.walk [] root (os.components cwd)).

(** ** Examples to run the model on *)

Definition www : os.node :=
  os.Dir [("srv", os.Dir [("secret.txt", os.File "outside" 100);
                          ("www", os.Dir [("index.html", os.File "<h1>hi</h1>" 784111777);
                                          ("secret.txt", os.File "inside" 200);
                                          ("sub", os.Dir [("a.txt", os.File "A" 5)])])])].

Definition w0 (events : list event) : world :=
  mk_world www "/srv/www" [] None events false [].

(** A client's request: the request line, header lines, the blank line. *)
Definition client (requestline : string) (header_lines : list string) : connection :=
  mk_connection "127.0.0.1" 800000000
    (app (map (fun l => l ++ PyStr.CR ++ PyStr.LF) (requestline :: header_lines))
         [PyStr.CR ++ PyStr.LF])
    None.

(** Port 8000 is taken. *)
Definition w_busy : world := mk_world www "/srv/www" [8000%Z] None [] false [].

(** The tree of [www] with another file outside the working directory. *)
Definition www' : os.node :=
  os.Dir [("srv", os.Dir [("secret.txt", os.File "something else" 300);
                          ("www", os.Dir [("index.html", os.File "<h1>hi</h1>" 784111777);
                                          ("secret.txt", os.File "inside" 200);
                                          ("sub", os.Dir [("a.txt", os.File "A" 5)])])])].


(** ** The replies the handler builds *)

Module Reply.
Import PyStr http_server.

Section Shapes.
Context {P : Platform}.

(** Whether the command of the request is [HEAD]. *)
Definition is_head (command : option string) : bool :=
  match command with Some "HEAD" => true | _ => false end.

(** What [send_response] opens every reply with. *)
Definition opening (now : Z) : list (string * string) :=
  [("Server", version_string); ("Date", date_time_string now)].

(** The reply of [send_error]; [head] says whether the request is [HEAD]. *)
Definition error (now code : Z) (message explain : option string) (head : bool)
  : response :=
  let '(shortmsg, longmsg) :=
    match responses code with Some sl => sl | None => ("???", "???") end in
  let message := match message with Some m => m | None => shortmsg end in
  let explain := match explain with Some e => e | None => longmsg end in
  let page := error_page code message explain in
  let with_page :=
    (200 <=? code)%Z && negb ((code =? 204) || (code =? 205) || (code =? 304))%Z in
  mk_response (Some code) message
    (app (opening now)
         (("Connection", "close")
          :: (if with_page
              then [("Content-Type", error_content_type);
                    ("Content-Length", str (N.of_nat (String.length page)))]
              else [])))
    true
    (if with_page && negb head && negb (is_empty page) then page else "").

(** The head of the reply that carries a file, and of the one that carries
    the listing of a directory; the body follows for [GET]. *)
Definition file (now : Z) (ctype : string) (size : nat) (mtime : Z) : response :=
  mk_response (Some 200%Z) "OK"
    (app (opening now)
         [("Content-type", ctype);
          ("Content-Length", str (N.of_nat size));
          ("Last-Modified", date_time_string mtime)])
    true "".

Definition listing (now : Z) (size : nat) : response :=
  mk_response (Some 200%Z) "OK"
    (app (opening now)
         [("Content-type", "text/html; charset=" ++ fs_encoding);
          ("Content-Length", str (N.of_nat size))])
    true "".

Definition unchanged (now : Z) : response :=
  mk_response (Some 304%Z) "Not Modified" (opening now) true "".

Definition moved (now : Z) (location : string) : response :=
  mk_response (Some 301%Z) "Moved Permanently"
    (app (opening now) [("Location", location); ("Content-Length", "0")])
    true "".

(** A reply with a body added by [wfile.write]. *)
Definition with_body (r : response) (data : string) : response :=
  mk_response (status r) (reason r) (reply_headers r) (ended r) (body r ++ data).

(** What [send_head] sends, with what it returns to [do_GET] or [do_HEAD]:
    the bytes to copy to the client, if any. *)
Inductive heads (now : Z) (head : bool) : option string -> response -> Prop :=
| heads_error message :
    heads now head None (error now 404 (Some message) None head)
| heads_unchanged :
    heads now head None (unchanged now)
| heads_moved location :
    heads now head None (moved now location)
| heads_file ctype data mtime :
    heads now head (Some data) (file now ctype (String.length data) mtime)
| heads_listing page :
    heads now head (Some page) (listing now (String.length page)).

(** What the client has got when [do_GET] is done. *)
Definition sent (f : option string) (r : response) : response :=
  match f with
  | Some data => with_body r data
  | None => r
  end.

End Shapes.
End Reply.

(** ** What the further properties speak of *)

(** The connections accepted and the connections closed, in a trace. *)
Fixpoint accepts_of (t : list action) : list string :=
  match t with
  | [] => []
  | Accept peer :: rest => peer :: accepts_of rest
  | _ :: rest => accepts_of rest
  end.

Fixpoint closes_of (t : list action) : list string :=
  match t with
  | [] => []
  | CloseRequest peer :: rest => peer :: closes_of rest
  | _ :: rest => closes_of rest
  end.

(** What [handle_error] writes about a connection. *)
Definition report (c : connection) : list action :=
  [Stderr "----------------------------------------";
   Stderr ("Exception occurred during processing of request from " ++ peer c);
   Stderr "Traceback (most recent call last):";
   Stderr "----------------------------------------"].

(** A world that differs from [w] in its file system and in what is still
    to come. *)
Definition with_fs (root : os.node) (w : world) : world :=
  mk_world root (cwd w) (in_use w) (bind_refused w) (input w)
           (shutdown_requested w) (trace w).

Definition with_input (events : list event) (w : world) : world :=
  mk_world (fs w) (cwd w) (in_use w) (bind_refused w) events
           (shutdown_requested w) (trace w).

(** Whether the [Content-Length] of a reply, if it has one, is the length
    of its body, and the body is empty if it has none. *)
Definition length_fits (r : http_server.response) : Prop :=
  match http_server.headers_get "Content-Length" (http_server.reply_headers r) with
  | Some v => v = PyStr.str (N.of_nat (String.length (http_server.body r)))
  | None => http_server.body r = ""
  end.


(** A request of a hundred header lines, and a request line that is too
    long. *)
Definition hundred_headers : list string :=
  map (fun l => l ++ PyStr.CR ++ PyStr.LF) (repeat "X-Pad: 1" 100).

Definition long_line : string :=
  "GET /" ++ String.concat "" (repeat "0123456789abcdef" 4100) ++ " HTTP/1.1".

(** A client whose connection breaks. *)
Definition broken (e : exception) : connection := mk_connection "10.0.0.1" 5 [] (Some e).

(** * Properties *)

Example split_ex : PyStr.split "/" "/a//b/" = [""; "a"; ""; "b"; ""].
Proof. reflexivity. Qed.

Example words_ex : PyStr.words "GET  /x HTTP/1.0" = ["GET"; "/x"; "HTTP/1.0"].
Proof. reflexivity. Qed.

Example normpath_ex1 : posixpath.normpath "/../a/./b/../c" = "/a/c".
Proof. reflexivity. Qed.

Example normpath_ex2 : posixpath.normpath "../../etc/passwd" = "../../etc/passwd".
Proof. reflexivity. Qed.

Example normpath_ex3 : posixpath.normpath "//a" = "//a" /\ posixpath.normpath "///a" = "/a".
Proof. split; reflexivity. Qed.

Example dirname_ex : posixpath.dirname "/a/b" = "/a" /\ posixpath.dirname "b" = ""
                     /\ posixpath.dirname "//" = "//".
Proof. repeat split; reflexivity. Qed.

Example formatdate_ex : Posix.formatdate 784111777 = "Sun, 06 Nov 1994 08:49:37 GMT".
Proof. vm_compute. reflexivity. Qed.

Example parsedate_ex : Posix.parsedate_utc "Sun, 06 Nov 1994 08:49:37 GMT" = Some 784111777%Z.
Proof. vm_compute. reflexivity. Qed.


(** ** Paths *)

Module PathFacts.
Import PyStr.

Lemma split_not_nil sep s : split sep s <> [].
Proof.
  destruct s as [|c s]; simpl; [discriminate|].
  destruct (Ascii.eqb c sep); [discriminate|].
  destruct (split sep s); discriminate.
Qed.

(** Splitting at a separator that is there splits the list of parts. *)
Lemma split_app_sep sep a b :
  split sep (a ++ String sep b) = (split sep a ++ split sep b)%list.
Proof.
  induction a as [|c a IH]; simpl.
  - rewrite Ascii.eqb_refl.
    reflexivity.
  - destruct (Ascii.eqb c sep); [now rewrite IH|].
    rewrite IH.
    destruct (split sep a) as [|w ws] eqn:E; [now apply split_not_nil in E|].
    reflexivity.
Qed.

Lemma split_no_sep sep w : contains sep w = false -> split sep w = [w].
Proof.
  induction w as [|c w IH]; simpl; [reflexivity|].
  intros H. apply Bool.orb_false_iff in H as [Hc Hw].
  rewrite Hc, (IH Hw).
  reflexivity.
Qed.

Lemma split_parts_no_sep sep s w : In w (split sep s) -> contains sep w = false.
Proof.
  revert w. induction s as [|c s IH]; simpl; intros w H.
  - destruct H as [<-|[]]. reflexivity.
  - destruct (Ascii.eqb c sep) eqn:Ec.
    + destruct H as [<-|H]; [reflexivity|auto].
    + destruct (split sep s) as [|v vs] eqn:E; [now apply split_not_nil in E|].
      destruct H as [<-|H].
      * simpl. rewrite Ec. apply IH. now left.
      * apply IH. now right.
Qed.

Lemma append_nil_r s : s ++ "" = s.
Proof. induction s; simpl; congruence. Qed.

Lemma append_assoc a b c : (a ++ b) ++ c = a ++ b ++ c.
Proof. induction a; simpl; congruence. Qed.



Lemma endswith_slash_inv a : endswith a "/" = true -> exists a', a = a' ++ "/".
Proof.
  induction a as [|c a IH]; cbn [endswith]; [discriminate|].
  intros H. apply Bool.orb_true_iff in H as [H|H].
  - apply String.eqb_eq in H. exists "". now rewrite H.
  - destruct (IH H) as [a' ->]. now exists (String c a').
Qed.


Lemma components_app_sep a b :
  os.components (a ++ String "/" b) = (os.components a ++ os.components b)%list.
Proof. unfold os.components. now rewrite split_app_sep, filter_app. Qed.

Lemma components_slash a : os.components (a ++ "/") = os.components a.
Proof. rewrite components_app_sep. apply app_nil_r. Qed.

Lemma valid_name_inv w :
  os.valid_name w = true ->
  w <> "" /\ w <> "." /\ w <> ".." /\ contains "/" w = false.
Proof.
  unfold os.valid_name. intros H.
  repeat (apply Bool.andb_true_iff in H as [H ?]).
  repeat split; try (apply String.eqb_neq; now apply Bool.negb_true_iff).
  now apply Bool.negb_true_iff.
Qed.

Lemma components_name w : os.valid_name w = true -> os.components w = [w].
Proof.
  intros H. apply valid_name_inv in H as (Hne & _ & _ & Hs).
  unfold os.components. rewrite (split_no_sep _ _ Hs). simpl.
  destruct w; [congruence|reflexivity].
Qed.

Lemma startswith_slash_name w : contains "/" w = false -> startswith w "/" = false.
Proof.
  destruct w as [|c w]; [reflexivity|]. cbn [contains].
  intros H. apply Bool.orb_false_iff in H as [H _].
  unfold startswith. cbn [String.prefix].
  destruct (ascii_dec "/" c) as [<-|]; [discriminate|reflexivity].
Qed.

(** Joining a name to a path adds one component. *)
Lemma components_join a w :
  os.valid_name w = true ->
  os.components (posixpath.join a w) = (os.components a ++ [w])%list.
Proof.
  intros Hw. pose proof (components_name _ Hw) as Hc.
  apply valid_name_inv in Hw as (_ & _ & _ & Hs).
  unfold posixpath.join. rewrite (startswith_slash_name _ Hs).
  destruct (String.eqb a "") eqn:Ea; simpl.
  - apply String.eqb_eq in Ea. subst a. exact Hc.
  - destruct (endswith a "/") eqn:Es.
    + apply endswith_slash_inv in Es as [a' ->].
      rewrite append_assoc. simpl.
      rewrite components_app_sep, components_slash. now rewrite Hc.
    + rewrite components_app_sep. now rewrite Hc.
Qed.

Section Translate.
Context {P : Platform}.

(** What [translate_path] gives names the working directory, or something
    reached from it through names alone: no [..] is left to climb. *)
Lemma translate_path_under d x :
  exists ws, forallb os.valid_name ws = true /\
             os.components (http_server.translate_path d x)
             = (os.components d ++ ws)%list.
Proof.
  unfold http_server.translate_path.
  set (l := filter _ (split "/" _)).
  assert (Hl : forall w, In w l -> is_empty w = false /\ contains "/" w = false).
  { intros w Hw. apply filter_In in Hw as [Hw He]. split.
    - now apply Bool.negb_true_iff.
    - eapply split_parts_no_sep, Hw. }
  clearbody l.
  assert (H : exists ws, forallb os.valid_name ws = true /\
                os.components
                  (fold_left
                     (fun path word =>
                        if negb (is_empty (posixpath.dirname word))
                           || String.eqb word posixpath.curdir
                           || String.eqb word posixpath.pardir
                        then path else posixpath.join path word) l d)
                = (os.components d ++ ws)%list).
  { assert (G : exists ws, forallb os.valid_name ws = true /\
                  os.components d = (os.components d ++ ws)%list)
      by (exists []; split; [reflexivity|now rewrite app_nil_r]).
    revert G. generalize d at 1 3 as acc.
    induction l as [|w l IH]; intros acc G; [exact G|].
    simpl. apply IH; [intros; apply Hl; now right|].
    destruct G as (ws & Hws & E).
    destruct (Hl w (or_introl eq_refl)) as [Hne Hs].
    destruct (negb (is_empty (posixpath.dirname w)) || _ || _) eqn:C.
    - now exists ws.
    - apply Bool.orb_false_iff in C as [C C2].
      apply Bool.orb_false_iff in C as [_ C1].
      assert (Hv : os.valid_name w = true).
      { unfold os.valid_name, posixpath.curdir, posixpath.pardir in *.
        unfold is_empty in Hne. now rewrite Hne, C1, C2, Hs. }
      exists (ws ++ [w])%list. split.
      + rewrite forallb_app, Hws. simpl. now rewrite Hv.
      + rewrite (components_join _ _ Hv), E. now rewrite app_assoc. }
  destruct H as (ws & Hws & E). exists ws. split; [exact Hws|].
  destruct (endswith _ "/"); [now rewrite components_slash|exact E].
Qed.

End Translate.

Lemma walk_app anc cur cs ws :
  os.walk anc cur (cs ++ ws)
  = match os.walk anc cur cs with
    | Some (anc', n) => os.walk anc' n ws
    | None => None
    end.
Proof.
  revert anc cur. induction cs as [|c cs IH]; intros anc cur; [reflexivity|].
  simpl. destruct cur as [d m|es]; [reflexivity|].
  destruct (String.eqb c "."); [apply IH|].
  destruct (String.eqb c ".."); [destruct anc; apply IH|].
  destruct (os.assoc c es); [apply IH|reflexivity].
Qed.

(** Going down through names does not look at where one came from. *)
Lemma walk_names anc anc' n ws :
  forallb os.valid_name ws = true ->
  option_map snd (os.walk anc n ws) = option_map snd (os.walk anc' n ws).
Proof.
  revert anc anc' n. induction ws as [|c cs IH]; intros anc anc' n H; [reflexivity|].
  simpl in H. apply Bool.andb_true_iff in H as [Hc Hcs].
  apply valid_name_inv in Hc as (_ & H1 & H2 & _).
  apply String.eqb_neq in H1, H2.
  simpl. destruct n as [d m|es]; [reflexivity|].
  rewrite H1, H2.
  destruct (os.assoc c es); [now apply IH|reflexivity].
Qed.

Lemma stat_walk root p :
  os.stat root p
  = if is_empty p then None
    else match option_map snd (os.walk [] root (os.components p)) with
         | Some (os.File d m) => if endswith p "/" then None else Some (os.File d m)
         | Some (os.Dir es) => Some (os.Dir es)
         | None => None
         end.
Proof.
  unfold os.stat. destruct (is_empty p); [reflexivity|].
  destruct (os.walk [] root (os.components p)) as [[anc [d m|es]]|]; reflexivity.
Qed.

(** [stat] on a path under the working directory sees the tree below the
    working directory and nothing else. *)
Lemma stat_under root1 root2 cwd p ws :
  os_subtree root1 cwd = os_subtree root2 cwd ->
  os.components p = (os.components cwd ++ ws)%list ->
  forallb os.valid_name ws = true ->
  os.stat root1 p = os.stat root2 p.
Proof.
  unfold os_subtree. intros Hsub Hp Hws.
  rewrite !stat_walk, Hp, !walk_app.
  destruct (os.walk [] root1 (os.components cwd)) as [[a1 n1]|];
    destruct (os.walk [] root2 (os.components cwd)) as [[a2 n2]|];
    simpl in Hsub; try discriminate; [|reflexivity].
  injection Hsub as ->.
  now rewrite (walk_names a1 a2 n2 ws Hws).
Qed.

End PathFacts.

(** ** The handler *)

Module HandlerFacts.
Import PyStr http_server.
Open Scope handler_scope.

(** Running the text of a method on a handler object. *)
Ltac run :=
  unfold bind;
  cbn [ret gets modify raise when write_stderr wfile_write
       send_response_only end_headers
       set_command set_path set_request_version set_requestline set_headers
       set_close_connection set_raw_requestline set_rfile
       with_req with_wfile with_resp
       directory rfile raw_requestline req close_connection wfile stderr
       requestline command path request_version headers
       status reason reply_headers ended body fst snd
       negb andb orb length Nat.eqb Nat.leb nth last hd tl].

Section Sound.
Context {P : Platform}.
Variable root : os.node.
Variable now : Z.
Variable client_address : string.
Variable fault : option exception.

(** What holds of a handler object from the first statement of [handle]
    on: it serves [d], and it will close the connection. *)
Definition inv (d : string) (h : handler) : Prop :=
  directory h = d /\ close_connection h = true.

(** A method is sound when it keeps [inv] and raises nothing but what the
    connection raised, or [ValueError]. *)
Definition sound {A} (m : H A) : Prop :=
  forall d h, inv d h ->
    inv d (snd (m h)) /\
    forall e, fst (m h) = Raise e -> e = ValueError \/ fault = Some e.

Lemma sound_ret {A} (a : A) : sound (ret a).
Proof. intros d h I. split; [exact I|discriminate]. Qed.

Lemma sound_bind {A B} (m : H A) (k : A -> H B) :
  sound m -> (forall a, sound (k a)) -> sound (bind m k).
Proof.
  intros Hm Hk d h I. unfold bind.
  destruct (Hm d h I) as [I' E]. destruct (m h) as [[a|e] h']; simpl in *.
  - apply Hk, I'.
  - split; [exact I'|]. intros e' [= <-]. now apply E.
Qed.

Lemma sound_gets {A} (f : handler -> A) : sound (gets f).
Proof. intros d h I. split; [exact I|discriminate]. Qed.

Lemma sound_modify (f : handler -> handler) :
  (forall h, directory (f h) = directory h
             /\ close_connection (f h) = close_connection h) ->
  sound (modify f).
Proof.
  intros Hf d h [I1 I2]. destruct (Hf h) as [F1 F2].
  split; [split; simpl; congruence|discriminate].
Qed.

Lemma sound_when b (m : H unit) : sound m -> sound (when b m).
Proof. destruct b; [auto|intros _; apply sound_ret]. Qed.

Lemma sound_raise_ValueError {A} : sound (@raise A ValueError).
Proof. intros d h I. split; [exact I|]. intros e [= <-]. now left. Qed.

Lemma sound_close : sound (set_close_connection true).
Proof. intros d h [I1 I2]. split; [now split|discriminate]. Qed.

Lemma sound_with_req f : sound (modify (with_req f)).
Proof. now apply sound_modify. Qed.

Lemma sound_with_wfile f : sound (modify (with_wfile f)).
Proof. now apply sound_modify. Qed.

Lemma sound_with_resp f : sound (modify (with_resp f)).
Proof. now apply sound_modify. Qed.

Lemma sound_set_rfile v : sound (set_rfile v).
Proof. now apply sound_modify. Qed.

Lemma sound_set_raw v : sound (set_raw_requestline v).
Proof. now apply sound_modify. Qed.

Lemma sound_write_stderr l : sound (write_stderr l).
Proof. now apply sound_modify. Qed.

Lemma sound_try_except {A} (m : H A) catch :
  sound m -> (forall e k, catch e = Some k -> sound k) -> sound (try_except m catch).
Proof.
  intros Hm Hc d h I. unfold try_except.
  destruct (Hm d h I) as [I' E]. destruct (m h) as [[a|e] h']; simpl in *.
  - split; [exact I'|discriminate].
  - destruct (catch e) as [k|] eqn:C.
    + now apply (Hc e k C).
    + split; [exact I'|]. intros e' [= <-]. now apply E.
Qed.

Lemma sound_try_finally {A} (m : H A) f :
  sound m -> sound f -> sound (try_finally m f).
Proof.
  intros Hm Hf d h I. unfold try_finally.
  destruct (Hm d h I) as [I' E]. destruct (m h) as [r h']; simpl in *.
  destruct (Hf d h' I') as [I'' E']. destruct (f h') as [[[]|e] h'']; simpl in *.
  - split; [exact I''|exact E].
  - split; [exact I''|]. intros e' [= <-]. now apply E'.
Qed.

Lemma protocol_old : ge protocol_version "HTTP/1.1" = false.
Proof. reflexivity. Qed.

Create HintDb sound discriminated.
#[local] Hint Resolve sound_ret sound_gets sound_raise_ValueError sound_close
  sound_with_req sound_with_wfile sound_with_resp sound_set_rfile sound_set_raw
  sound_write_stderr : sound.

(** One step through the text of a method. *)
Ltac sound_step :=
  try (progress (rewrite ?protocol_old, ?Bool.andb_false_r; cbn [when andb]));
  lazymatch goal with
  | |- sound (bind _ _) => apply sound_bind; [|intro]
  | |- sound (when _ _) => apply sound_when
  | |- sound (if ?c then _ else _) => destruct c
  | |- sound (match ?x with _ => _ end) => destruct x
  | |- sound _ => solve [auto with sound]
  end.

Ltac sound_tac := cbv zeta; repeat sound_step.

Lemma sound_log_message m : sound (log_message now client_address m).
Proof. unfold log_message. sound_tac. Qed.
#[local] Hint Resolve sound_log_message : sound.

Lemma sound_log_request c : sound (log_request now client_address c).
Proof. unfold log_request. sound_tac. Qed.

Lemma sound_log_error m : sound (log_error now client_address m).
Proof. unfold log_error. sound_tac. Qed.
#[local] Hint Resolve sound_log_request sound_log_error : sound.

Lemma sound_send_response_only c m : sound (send_response_only c m).
Proof. unfold send_response_only. sound_tac. Qed.

Lemma sound_send_header k v :
  String.eqb (lower k) "connection" && String.eqb (lower v) "keep-alive" = false ->
  sound (send_header k v).
Proof.
  intros C. unfold send_header, set_request_version, set_close_connection.
  sound_step; [sound_tac|].
  destruct (String.eqb (lower k) "connection"); simpl in *; [|apply sound_ret].
  rewrite C. destruct (String.eqb (lower v) "close"); simpl; [apply sound_close|apply sound_ret].
Qed.

Lemma sound_end_headers : sound end_headers.
Proof. unfold end_headers. sound_tac. Qed.

#[local] Hint Resolve sound_send_response_only sound_end_headers : sound.
#[local] Hint Extern 1 (sound (send_header _ _)) =>
  apply sound_send_header; reflexivity : sound.

Lemma sound_send_response c m : sound (send_response now client_address c m).
Proof. unfold send_response. sound_tac. Qed.
#[local] Hint Resolve sound_send_response : sound.

Lemma sound_wfile_write data : sound (wfile_write data).
Proof. unfold wfile_write. sound_tac. Qed.
#[local] Hint Resolve sound_wfile_write : sound.

Lemma sound_send_error c m e : sound (send_error now client_address c m e).
Proof. unfold send_error. sound_tac. Qed.
#[local] Hint Resolve sound_send_error : sound.

Lemma sound_set_command v : sound (set_command v).
Proof. unfold set_command. sound_tac. Qed.
Lemma sound_set_path v : sound (set_path v).
Proof. unfold set_path. sound_tac. Qed.
Lemma sound_set_request_version v : sound (set_request_version v).
Proof. unfold set_request_version. sound_tac. Qed.
Lemma sound_set_requestline v : sound (set_requestline v).
Proof. unfold set_requestline. sound_tac. Qed.
Lemma sound_set_headers v : sound (set_headers v).
Proof. unfold set_headers. sound_tac. Qed.
#[local] Hint Resolve sound_set_command sound_set_path sound_set_request_version
  sound_set_requestline sound_set_headers : sound.

Lemma sound_handle_expect_100 : sound handle_expect_100.
Proof. unfold handle_expect_100. sound_tac. Qed.
#[local] Hint Resolve sound_handle_expect_100 : sound.

Lemma sound_parse_request_headers : sound (parse_request_headers now client_address).
Proof. unfold parse_request_headers. sound_tac. Qed.
#[local] Hint Resolve sound_parse_request_headers : sound.

Lemma sound_parse_request : sound (parse_request now client_address).
Proof. unfold parse_request. sound_tac. Qed.

#[local] Hint Resolve sound_parse_request : sound.

Lemma sound_list_directory p : sound (list_directory root now client_address p).
Proof. unfold list_directory. sound_tac. Qed.

Lemma sound_send_head_file p : sound (send_head_file root now client_address p).
Proof. unfold send_head_file. sound_tac. Qed.
#[local] Hint Resolve sound_list_directory sound_send_head_file : sound.

Lemma sound_send_head : sound (send_head root now client_address).
Proof. unfold send_head. sound_tac. Qed.
#[local] Hint Resolve sound_send_head : sound.

Lemma sound_do_GET : sound (do_GET root now client_address).
Proof. unfold do_GET. sound_tac. Qed.

Lemma sound_do_HEAD : sound (do_HEAD root now client_address).
Proof. unfold do_HEAD. sound_tac. Qed.
#[local] Hint Resolve sound_do_GET sound_do_HEAD : sound.

Lemma sound_readline : sound (readline fault).
Proof.
  unfold readline. destruct fault as [e|] eqn:F; [|sound_tac].
  intros d h I. split; [exact I|]. intros e' [= <-]. now right.
Qed.
#[local] Hint Resolve sound_readline : sound.

Lemma sound_method c m e :
  sound (match method_of root now client_address c with
         | None => send_error now client_address 501 m e
         | Some method => method
         end).
Proof.
  unfold method_of.
  destruct (String.eqb c "GET"); [|destruct (String.eqb c "HEAD")]; sound_tac.
Qed.

Lemma sound_handle_one_request :
  sound (handle_one_request root now client_address fault).
Proof.
  unfold handle_one_request. apply sound_try_except.
  - cbv zeta.
    repeat lazymatch goal with
           | |- sound (match method_of _ _ _ _ with _ => _ end) => apply sound_method
           | _ => sound_step
           end.
  - intros e k. destruct e; intros [= <-]. sound_tac.
Qed.
#[local] Hint Resolve sound_handle_one_request : sound.

Lemma sound_handle_more n : sound (handle_more root now client_address fault n).
Proof. induction n; simpl; sound_tac. Qed.

(** After its first statement [handle] is one call of
    [handle_one_request]: the connection is closed when it returns, and the
    loop does not take a turn. *)
Lemma handle_once h :
  handle root now client_address fault h
  = handle_one_request root now client_address fault
      (mk_handler (directory h) (rfile h) (raw_requestline h) (req h) true
                  (wfile h) (stderr h)).
Proof.
  unfold handle, bind at 1. cbn [set_close_connection modify].
  set (h1 := mk_handler _ _ _ _ true _ _).
  destruct (sound_handle_one_request (directory h) h1 (conj eq_refl eq_refl))
    as [[_ C] _].
  unfold bind.
  destruct (handle_one_request root now client_address fault h1) as [[[]|e] h2];
    [|reflexivity].
  cbn [gets handle_more]. unfold bind. cbn [gets].
  simpl in C. now rewrite C.
Qed.

Lemma init_once h :
  init root now client_address fault h
  = handle_one_request root now client_address fault
      (mk_handler (directory h) (rfile h) (raw_requestline h) (req h) true
                  (wfile h) (stderr h)).
Proof.
  unfold init, try_finally, finish, ret. rewrite handle_once.
  now destruct (handle_one_request _ _ _ _ _) as [[[]|e] h2].
Qed.


End Sound.

(** *** What the methods do *)

Section Run.
Context {P : Platform}.

Lemma send_header_run k v h :
  String.eqb (lower k) "connection" = false ->
  send_header k v h
  = (Ok tt,
     with_resp (fun r => mk_response (status r) (reason r)
                           (reply_headers r ++ [(k, v)]) (ended r) (body r)) h).
Proof. intros E. unfold send_header. run. now rewrite E. Qed.

Lemma send_header_close_run h :
  send_header "Connection" "close" h
  = (Ok tt,
     with_resp (fun r => mk_response (status r) (reason r)
                           (reply_headers r ++ [("Connection", "close")])
                           (ended r) (body r))
       (mk_handler (directory h) (rfile h) (raw_requestline h) (req h) true
                   (wfile h) (stderr h))).
Proof. reflexivity. Qed.

Ltac run_headers :=
  repeat (first [rewrite send_header_close_run
                |rewrite send_header_run by reflexivity]; run).

Lemma send_response_run now client code m h :
  send_response now client code m h
  = (Ok tt,
     mk_handler (directory h) (rfile h) (raw_requestline h) (req h)
       (close_connection h)
       (mk_response (Some code)
          match m with
          | Some m => m
          | None => match responses code with Some (m, _) => m | None => "" end
          end
          [("Server", version_string); ("Date", date_time_string now)] false ""
        :: wfile h)
       (stderr h ++ [log_line client now
                       (dq ++ requestline (req h) ++ dq ++ " "
                        ++ str (Z.to_N code) ++ " -")])).
Proof.
  unfold send_response, log_request, log_message. run. run_headers.
  reflexivity.
Qed.

(** [send_error] sends one reply, with the code it is given, and leaves
    the connection to be closed. *)
Lemma send_error_run now client code m e h :
  exists r lines,
    send_error now client code m e h
    = (Ok tt,
       mk_handler (directory h) (rfile h) (raw_requestline h) (req h) true
                  (r :: wfile h) (stderr h ++ lines))
    /\ status r = Some code /\ ended r = true
    /\ (command (req h) = Some "HEAD" -> body r = "").
Proof.
  unfold send_error.
  destruct (match responses code with Some sl => sl | None => _ end) as [s l].
  cbv zeta. unfold log_error, log_message. run.
  rewrite send_response_run. run. run_headers.
  destruct ((200 <=? code)%Z && _); run; run_headers.
  - destruct (negb _ && negb _) eqn:C; run;
      do 2 eexists; rewrite <- app_assoc; (split; [reflexivity|]);
      repeat split.
    intros HEAD. rewrite HEAD in C. discriminate.
  - do 2 eexists; rewrite <- app_assoc; (split; [reflexivity|]); repeat split.
Qed.

Ltac run_error :=
  match goal with
  | |- context [send_error ?now ?client ?code ?m ?e ?h] =>
      let r := fresh "r" in
      let S := fresh "S" in
      destruct (send_error_run now client code m e h) as (r & ? & -> & S & ? & ?);
      run
  end.

(** A case split on the condition the run is stuck at. *)
Ltac run_split :=
  match goal with
  | |- context [match parse_version ?v with _ => _ end] =>
      destruct (parse_version v) as [[? ?]|] eqn:?
  | |- context [match read_headers ?n ?l with _ => _ end] =>
      destruct (read_headers n l) eqn:?
  | |- context [(if ?c then _ else _) _] => destruct c eqn:?
  | |- context [when ?c _ _] => destruct c eqn:?
  end.

Ltac run_all :=
  repeat (run; run_headers; rewrite ?protocol_old, ?Bool.andb_false_r;
          first [run_error
                |rewrite send_response_run
                |run_split]);
  run.

Lemma parse_request_run now client h :
  match parse_request now client h with
  | (Ok true, h') =>
      wfile h' = wfile h /\ stderr h' = stderr h /\ directory h' = directory h
      /\ close_connection h' = true
      /\ exists c, command (req h') = Some c
  | (Ok false, h') =>
      (wfile h' = wfile h /\ words (rstrip is_crlf (raw_requestline h)) = [])
      \/ exists r code, wfile h' = r :: wfile h /\ status r = Some code
                        /\ In code [400; 431; 505]%Z
  | (Raise _, _) => False
  end.
Proof.
  unfold parse_request, parse_request_headers, handle_expect_100. cbv zeta. run.
  destruct (words (rstrip is_crlf (raw_requestline h))) as [|w1 [|w2 [|w3 [|w4 ws]]]] eqn:W.
  all: run_all;
    first [ left; now auto
          | right; do 2 eexists; simpl; now eauto 8
          | repeat split; eauto ].
Qed.




(** On a connection that works, a request that [parse_request] accepts
    goes to the method of its command. *)
Lemma handle_one_request_parsed root now client raw rest h h' c :
  rfile h = raw :: rest ->
  (65536 <? N.of_nat (String.length raw))%N = false ->
  is_empty raw = false ->
  parse_request now client
    (mk_handler (directory h) rest raw (req h) (close_connection h)
                (wfile h) (stderr h))
  = (Ok true, h') ->
  command (req h') = Some c ->
  handle_one_request root now client None h
  = match method_of root now client c with
    | Some method => method h'
    | None =>
        send_error now client 501
          (Some ("Unsupported method (" ++ repr c ++ ")")) None h'
    end.
Proof.
  intros R L E Hp Hc.
  pose proof (parse_request_run now client
                (mk_handler (directory h) rest raw (req h) (close_connection h)
                            (wfile h) (stderr h))) as S.
  rewrite Hp in S. destruct S as (_ & _ & D & C & _).
  unfold handle_one_request, try_except, readline. run. rewrite R. run.
  rewrite L, E. run. rewrite Hp. run. rewrite Hc.
  pose proof (sound_method root now client None c
                (Some ("Unsupported method (" ++ repr c ++ ")")) None
                (directory h') h' (conj eq_refl C)) as [_ X].
  destruct (method_of root now client c) as [method|].
  - destruct (method h') as [[[]|e] h2]; [reflexivity|].
    destruct (X e eq_refl) as [->|]; [reflexivity|discriminate].
  - destruct (send_error _ _ _ _ _ h') as [[[]|e] h2]; [reflexivity|].
    destruct (X e eq_refl) as [->|]; [reflexivity|discriminate].
Qed.

Lemma Handler_once root cwd c :
  Handler root cwd c
  = handle_one_request root (time c) (peer c) (fault c)
      (mk_handler cwd (lines c) "" (mk_request "" None "" "" []) true [] []).
Proof. unfold Handler, SimpleHTTPRequestHandler. now rewrite init_once. Qed.

(** The handler of a connection that delivers a request. *)
Lemma Handler_request root cwd c r :
  request_of cwd c = Some r ->
  exists h m,
    req h = r /\ command r = Some m /\ directory h = cwd /\ wfile h = []
    /\ Handler root cwd c
       = match method_of root (time c) (peer c) m with
         | Some method => method h
         | None =>
             send_error (time c) (peer c) 501
               (Some ("Unsupported method (" ++ repr m ++ ")")) None h
         end.
Proof.
  unfold request_of. intros R. rewrite Handler_once.
  destruct (fault c) eqn:F; [discriminate|].
  destruct (lines c) as [|raw rest] eqn:L; [discriminate|].
  cbn [hd tl] in R.
  destruct ((65536 <? _)%N) eqn:Long; [discriminate|].
  destruct (is_empty raw) eqn:E; [discriminate|]. cbn [orb] in R.
  destruct (parse_request _ _ _) as [[[|]|e] h] eqn:Hp; try discriminate.
  injection R as <-.
  pose proof (parse_request_run (time c) (peer c)
                (mk_handler cwd rest raw (mk_request "" None "" "" []) true [] []))
    as S.
  rewrite Hp in S. destruct S as (W & _ & D & _ & m & Hm).
  exists h, m. repeat split; try assumption.
  now apply (handle_one_request_parsed root (time c) (peer c) raw rest _ h m).
Qed.


(** A connection that fails while the request line is read: the exception
    leaves the handler, but for a time-out, which it logs. *)
Lemma Handler_fault root cwd c e :
  fault c = Some e ->
  wfile (snd (Handler root cwd c)) = []
  /\ fst (Handler root cwd c)
     = match e with TimeoutError => Ok tt | _ => Raise e end.
Proof.
  intros F. rewrite Handler_once.
  unfold handle_one_request, try_except, readline. rewrite F.
  destruct e; split; reflexivity.
Qed.





End Run.
End HandlerFacts.

(** ** The working directory is all the handler sees *)

Module Confinement.
Import PyStr http_server PathFacts HandlerFacts.
Open Scope handler_scope.

Lemma In_insert_by_lower x y l : In x (insert_by_lower y l) -> x = y \/ In x l.
Proof.
  induction l as [|z l IH]; simpl.
  - intros [<-|[]]. now left.
  - destruct (String.ltb (lower y) (lower z)).
    + intros [<-|H]; [now left|now right].
    + intros [<-|H]; [right; now left|].
      destruct (IH H); [now left|right; now right].
Qed.

Lemma In_sort_by_lower x l : In x (sort_by_lower l) -> In x l.
Proof.
  unfold sort_by_lower.
  assert (G : forall acc, In x (fold_left (fun acc x => insert_by_lower x acc) l acc)
                          -> In x l \/ In x acc).
  { induction l as [|y l IH]; simpl; intros acc H; [now right|].
    destruct (IH _ H) as [H'|H']; [left; now right|].
    destruct (In_insert_by_lower _ _ _ H') as [->|]; [left; now left|now right]. }
  intros H. destruct (G [] H) as [|[]]. assumption.
Qed.

Section Same.
Context {P : Platform}.
Variables root1 root2 : os.node.
Variable cwd : string.
Hypothesis same : os_subtree root1 cwd = os_subtree root2 cwd.

(** A path that names the working directory or something below it. *)
Definition under (p : string) : Prop :=
  exists ws, forallb os.valid_name ws = true
             /\ os.components p = (os.components cwd ++ ws)%list.

Lemma under_translate x : under (translate_path cwd x).
Proof. apply translate_path_under. Qed.

Lemma under_join p n : under p -> os.valid_name n = true -> under (posixpath.join p n).
Proof.
  intros (ws & V & E) Hn. exists (ws ++ [n])%list. split.
  - rewrite forallb_app, V. simpl. now rewrite Hn.
  - now rewrite (components_join _ _ Hn), E, app_assoc.
Qed.

Lemma stat_same p : under p -> os.stat root1 p = os.stat root2 p.
Proof. intros (ws & V & E). exact (stat_under _ _ _ _ _ same E V). Qed.

Lemma isdir_same p : under p -> os.isdir root1 p = os.isdir root2 p.
Proof. intros U. unfold os.isdir. now rewrite (stat_same p U). Qed.

Lemma isfile_same p : under p -> os.isfile root1 p = os.isfile root2 p.
Proof. intros U. unfold os.isfile. now rewrite (stat_same p U). Qed.

Lemma open_same p : under p -> os.open root1 p = os.open root2 p.
Proof. intros U. unfold os.open. now rewrite (stat_same p U). Qed.

Lemma listdir_same p : under p -> os.listdir root1 p = os.listdir root2 p.
Proof. intros U. unfold os.listdir. now rewrite (stat_same p U). Qed.

Lemma listdir_valid root p l n :
  os.listdir root p = Some l -> In n l -> os.valid_name n = true.
Proof.
  unfold os.listdir. destruct (os.stat root p) as [[|es]|]; try discriminate.
  intros [= <-] H. now apply filter_In in H.
Qed.

Lemma send_head_file_same now client p h :
  under p ->
  send_head_file root1 now client p h = send_head_file root2 now client p h.
Proof. intros U. unfold send_head_file. now rewrite (open_same p U). Qed.

Lemma list_directory_same now client p h :
  under p ->
  list_directory root1 now client p h = list_directory root2 now client p h.
Proof.
  intros U. unfold list_directory. rewrite (listdir_same p U).
  destruct (os.listdir root2 p) as [l|] eqn:L; [|reflexivity].
  cbv zeta.
  rewrite (map_ext_in
             (fun name => if os.isdir root1 (posixpath.join p name)
                          then name ++ "/" else name)
             (fun name => if os.isdir root2 (posixpath.join p name)
                          then name ++ "/" else name)); [reflexivity|].
  intros n Hn. apply In_sort_by_lower in Hn.
  rewrite (isdir_same (posixpath.join p n)); [reflexivity|].
  apply under_join; [exact U|]. exact (listdir_valid _ _ _ _ L Hn).
Qed.

Lemma send_head_same now client h :
  directory h = cwd ->
  send_head root1 now client h = send_head root2 now client h.
Proof.
  intros D. unfold send_head, bind, gets. rewrite D. cbv zeta.
  pose proof (under_translate (path (req h))) as U.
  rewrite (isdir_same _ U).
  destruct (os.isdir root2 _); [|now apply send_head_file_same].
  destruct (urlsplit_path _); [|reflexivity].
  destruct (negb _); [reflexivity|].
  assert (U1 : under (posixpath.join (translate_path cwd (path (req h))) "index.html"))
    by now apply under_join.
  assert (U2 : under (posixpath.join (translate_path cwd (path (req h))) "index.htm"))
    by now apply under_join.
  rewrite (isfile_same _ U1), (isfile_same _ U2).
  destruct (os.isfile root2 _); [now apply send_head_file_same|].
  destruct (os.isfile root2 _); [now apply send_head_file_same|].
  now apply list_directory_same.
Qed.

Lemma method_same now client c m e h :
  directory h = cwd ->
  match method_of root1 now client c with
  | Some method => method
  | None => send_error now client 501 m e
  end h
  = match method_of root2 now client c with
    | Some method => method
    | None => send_error now client 501 m e
    end h.
Proof.
  intros D. unfold method_of, do_GET, do_HEAD, bind.
  destruct (String.eqb c "GET"); [now rewrite (send_head_same _ _ _ D)|].
  destruct (String.eqb c "HEAD"); [now rewrite (send_head_same _ _ _ D)|].
  reflexivity.
Qed.

Lemma handle_one_request_same now client fault h :
  directory h = cwd ->
  handle_one_request root1 now client fault h
  = handle_one_request root2 now client fault h.
Proof.
  intros D. unfold handle_one_request, try_except, readline.
  destruct fault; [reflexivity|]. run.
  destruct (rfile h) as [|raw rest]; run.
  - reflexivity.
  - destruct ((65536 <? _)%N); [reflexivity|].
    destruct (is_empty raw); [reflexivity|]. run.
    pose proof (parse_request_run now client
                  (mk_handler (directory h) rest raw (req h)
                              (close_connection h) (wfile h) (stderr h))) as S.
    destruct (parse_request now client _) as [[[|]|e] h2]; try reflexivity.
    destruct S as (_ & _ & D2 & _). simpl in D2. run.
    rewrite method_same; [reflexivity|congruence].
Qed.

(** Two file systems with the same tree at the working directory get the
    same handling of every connection. *)
Lemma Handler_same c : Handler root1 cwd c = Handler root2 cwd c.
Proof. rewrite !Handler_once. now apply handle_one_request_same. Qed.

End Same.
End Confinement.

(** ** The index page *)

Module IndexFacts.
Import PyStr http_server PathFacts HandlerFacts.
Open Scope handler_scope.

Section Index.
Context {P : Platform}.









End Index.
End IndexFacts.

(** ** The server *)

Module ServerFacts.
Import socketserver HandlerFacts.
Open Scope py_scope.

Lemma extend_nil w : extend w [] = w.
Proof. unfold extend. rewrite app_nil_r. now destruct w. Qed.

Lemma extend_extend w a b : extend (extend w a) b = extend w (a ++ b)%list.
Proof. unfold extend. cbn. now rewrite app_assoc. Qed.

Lemma bind_emit {A} a (k : unit -> Py.M A) w :
  Py.bind (emit a) k w = k tt (extend w [a]).
Proof. reflexivity. Qed.

Lemma bind_gets {A B} (f : world -> A) (k : A -> Py.M B) w :
  Py.bind (Py.gets f) k w = k (f w) w.
Proof. reflexivity. Qed.

Lemma bind_ret {A B} (a : A) (k : A -> Py.M B) w : Py.bind (Py.ret a) k w = k a w.
Proof. reflexivity. Qed.

Lemma bind_raise {A B} e (k : A -> Py.M B) w :
  Py.bind (Py.raise e) k w = (Raised e, w).
Proof. reflexivity. Qed.

Lemma bind_bind {A B C} (m : Py.M A) (f : A -> Py.M B) (g : B -> Py.M C) w :
  Py.bind (Py.bind m f) g w = Py.bind m (fun a => Py.bind (f a) g) w.
Proof. unfold Py.bind. now destruct (m w) as [[a|e|] w']. Qed.

Lemma emit_run a w : emit a w = (Returned tt, extend w [a]).
Proof. reflexivity. Qed.

Lemma bind_lines {A} lines (k : unit -> Py.M A) w :
  Py.bind (fold_right (fun line k => emit (Stderr line) ;; k) (Py.ret tt) lines) k w
  = k tt (extend w (map Stderr lines)).
Proof.
  revert w. induction lines as [|l ls IH]; intros w; cbn [fold_right map].
  - now rewrite bind_ret, extend_nil.
  - now rewrite bind_bind, bind_emit, IH, extend_extend.
Qed.

Ltac py :=
  repeat first [rewrite bind_bind | rewrite bind_emit | rewrite bind_gets
               | rewrite bind_ret | rewrite bind_raise | rewrite bind_lines
               | rewrite emit_run | rewrite extend_extend ];
  cbn [fs cwd in_use bind_refused input shutdown_requested trace extend fst snd
       Py.ret Py.raise].

(** Handling a connection adds to the trace and changes nothing else; it
    ends in an exception only if the handler ends in one that is not an
    [Exception]. *)
Lemma handle_request_noblock_run self c w :
  handle_request_noblock self (inr c) w
  = (if stops self (fs w) (cwd w) (Connect c) then Raised KeyboardInterrupt
     else Returned tt,
     extend w (handling self (fs w) (cwd w) c)).
Proof.
  unfold handling, stops, handle_request_noblock, verify_request, process_request,
    finish_request, shutdown_request, handle_error, Py.try_except.
  py.
  destruct (Handler_class self (fs w) (cwd w) c) as [[[]|e] h]; py.
  - reflexivity.
  - destruct e; cbn [is_Exception negb]; py; reflexivity.
Qed.

Lemma bind_set_input {A} events (k : unit -> Py.M A) w :
  Py.bind (set_input events) k w
  = k tt (mk_world (fs w) (cwd w) (in_use w) (bind_refused w) events
                   (shutdown_requested w) (trace w)).
Proof. reflexivity. Qed.

(** As long as no event stops it, the loop handles every event and then
    waits: it never returns. *)
Lemma serve_loop_blocks self events w :
  shutdown_requested w = false ->
  input w = events ->
  forallb (fun ev => negb (stops self (fs w) (cwd w) ev)) events = true ->
  serve_loop self events w
  = (Blocked,
     mk_world (fs w) (cwd w) (in_use w) (bind_refused w) [] false
              (trace w ++ flat_map (served self (fs w) (cwd w)) events)).
Proof.
  revert w. induction events as [|ev rest IH]; intros w S I Q.
  - cbn [serve_loop flat_map]. rewrite bind_gets, S, app_nil_r.
    destruct w; cbn in *. now subst.
  - cbn [forallb] in Q. apply Bool.andb_true_iff in Q as [Q1 Q2].
    apply Bool.negb_true_iff in Q1.
    cbn [serve_loop flat_map]. rewrite bind_gets, S, bind_set_input.
    destruct ev as [c| | |]; try discriminate;
      rewrite bind_gets; cbn [shutdown_requested].
    + rewrite S. unfold Py.bind at 1. rewrite handle_request_noblock_run.
      cbn [fs cwd]. rewrite Q1. unfold service_actions. rewrite bind_ret.
      rewrite IH; [|reflexivity|reflexivity|exact Q2].
      cbn [fs cwd in_use bind_refused trace extend served].
      now rewrite app_assoc.
    + rewrite S. unfold service_actions, handle_request_noblock.
      rewrite !bind_ret. now rewrite IH.
    + rewrite S. unfold service_actions. rewrite !bind_ret. now rewrite IH.
Qed.

(** The first event that stops the loop ends it with [KeyboardInterrupt],
    the events before it handled, those after it unread. *)
Lemma serve_loop_interrupted self pre ev post w :
  shutdown_requested w = false ->
  forallb (fun ev => negb (stops self (fs w) (cwd w) ev)) pre = true ->
  stops self (fs w) (cwd w) ev = true ->
  serve_loop self (pre ++ ev :: post) w
  = (Raised KeyboardInterrupt,
     mk_world (fs w) (cwd w) (in_use w) (bind_refused w) post false
              (trace w ++ flat_map (served self (fs w) (cwd w)) (pre ++ [ev]))).
Proof.
  revert w. induction pre as [|ev' rest IH]; intros w S Q St.
  - cbn [app serve_loop flat_map]. rewrite bind_gets, S, bind_set_input.
    destruct ev as [c| | |]; try discriminate.
    + rewrite bind_gets. cbn [shutdown_requested]. rewrite ?S.
      unfold Py.bind at 1. rewrite handle_request_noblock_run.
      cbn [fs cwd]. rewrite St. cbn [extend served fs cwd in_use bind_refused
                                     input shutdown_requested trace].
      now rewrite ?S, app_nil_r.
    + cbn [Py.raise served]. now rewrite ?S, app_nil_r.
  - cbn [forallb] in Q. apply Bool.andb_true_iff in Q as [Q1 Q2].
    apply Bool.negb_true_iff in Q1.
    cbn [app serve_loop flat_map]. rewrite bind_gets, S, bind_set_input.
    destruct ev' as [c| | |]; try discriminate;
      rewrite bind_gets; cbn [shutdown_requested]; rewrite ?S.
    + unfold Py.bind at 1. rewrite handle_request_noblock_run.
      cbn [fs cwd]. rewrite Q1. unfold service_actions. rewrite bind_ret.
      rewrite IH; [|reflexivity|exact Q2|exact St].
      cbn [fs cwd in_use bind_refused trace extend served].
      now rewrite app_assoc.
    + unfold service_actions, handle_request_noblock.
      rewrite !bind_ret. now rewrite IH.
    + unfold service_actions. rewrite !bind_ret. now rewrite IH.
Qed.

(** *** The script *)

Section Script.
Context {P : Platform}.

(** For the handler of the script, the events that stop the loop are the
    interrupts. *)
Lemma stops_interrupts root cwd ev : stops httpd root cwd ev = interrupts ev.
Proof.
  destruct ev as [c| | |]; try reflexivity.
  unfold stops, interrupts, httpd. cbn [Handler_class].
  destruct (fault c) as [e|] eqn:F.
  - destruct (Handler_fault root cwd c e F) as [_ ->]. now destruct e.
  - rewrite Handler_once, F.
    pose proof (sound_handle_one_request root (time c) (peer c) None cwd
                  (http_server.mk_handler cwd (lines c) ""
                     (http_server.mk_request "" None "" "" []) true [] [])
                  (conj eq_refl eq_refl)) as [_ X].
    destruct (http_server.handle_one_request _ _ _ _ _) as [[[]|e] h];
      [reflexivity|].
    destruct (X e eq_refl) as [->|]; [reflexivity|discriminate].
Qed.

Lemma quiet_stops root cwd events :
  forallb (fun ev => negb (interrupts ev)) events = true ->
  forallb (fun ev => negb (stops httpd root cwd ev)) events = true.
Proof.
  induction events as [|ev rest IH]; [reflexivity|].
  cbn [forallb]. rewrite stops_interrupts.
  intros Q. apply Bool.andb_true_iff in Q as [-> Q]. now apply IH.
Qed.

Lemma bind_error_none w :
  bind_error w = None ->
  port_in_use PORT (in_use w) = false /\ bind_refused w = None.
Proof. unfold bind_error. destruct (port_in_use PORT (in_use w)); now intros. Qed.

Lemma release_port ports :
  port_in_use PORT ports = false ->
  filter (fun p => negb (Z.eqb p PORT)) ports = ports.
Proof.
  unfold port_in_use. induction ports as [|p ps IH]; [reflexivity|].
  cbn [existsb filter]. intros H. apply Bool.orb_false_iff in H as [H1 H2].
  rewrite Z.eqb_sym, H1. cbn [negb]. now rewrite IH.
Qed.

Ltac script :=
  unfold python, main, Py.with_, TCPServer, server_bind, server_activate,
    socket_bind, socketserver.exit, server_close, serve_forever, print,
    Py.try_except, Py.try_finally, Py.bind;
  cbn [Py.ret Py.gets Py.modify Py.raise emit set_in_use set_input
       set_shutdown_request fs cwd in_use bind_refused input shutdown_requested
       trace fst snd server_address Handler_class bound].

(** Bound, with nothing to interrupt it, the process serves every
    connection and goes on waiting. *)
Lemma python_serves argv environ w :
  bind_error w = None ->
  forallb (fun ev => negb (interrupts ev)) (input w) = true ->
  python argv environ w
  = (Running,
     mk_world (fs w) (cwd w) (PORT :: in_use w) (bind_refused w) [] false
              (trace w
               ++ [Bind "" PORT None; Listen; Stdout ("good morning" ++ PyStr.LF)]
               ++ flat_map (served httpd (fs w) (cwd w)) (input w))).
Proof.
  intros B Q. apply bind_error_none in B as [B1 B2].
  script. rewrite B1, B2. script.
  change (mk_TCPServer ("", PORT) Handler true) with httpd.
  rewrite (serve_loop_blocks httpd (input w));
    [|reflexivity|reflexivity|now apply quiet_stops].
  cbn [fs cwd in_use bind_refused trace]. rewrite <- !app_assoc. reflexivity.
Qed.

(** Bound and then interrupted, the process closes its socket and ends
    with the traceback of [KeyboardInterrupt]. *)
Lemma python_interrupted argv environ w pre ev post :
  bind_error w = None ->
  input w = (pre ++ ev :: post)%list ->
  forallb (fun ev => negb (interrupts ev)) pre = true ->
  interrupts ev = true ->
  python argv environ w
  = (Exited 130,
     mk_world (fs w) (cwd w) (in_use w) (bind_refused w) post false
              (trace w
               ++ [Bind "" PORT None; Listen; Stdout ("good morning" ++ PyStr.LF)]
               ++ flat_map (served httpd (fs w) (cwd w)) (pre ++ [ev])%list
               ++ [CloseSocket; Stderr "Traceback (most recent call last):";
                   Stderr "KeyboardInterrupt"])).
Proof.
  intros B I Q S. apply bind_error_none in B as [B1 B2].
  script. rewrite B1, B2. script. rewrite I.
  change (mk_TCPServer ("", PORT) Handler true) with httpd.
  rewrite (serve_loop_interrupted httpd pre ev post);
    [|reflexivity|now apply quiet_stops|now rewrite stops_interrupts].
  script. cbn [negb Z.eqb filter exit_status exception_name].
  replace (PORT =? snd ("", PORT))%Z with true by reflexivity. cbn [negb].
  rewrite (release_port _ B1). rewrite <- !app_assoc. reflexivity.
Qed.

(** Not bound, the process ends at once with the traceback of the
    [OSError]. *)
Lemma python_bind_fails argv environ w e :
  bind_error w = Some e ->
  python argv environ w
  = (Exited 1,
     mk_world (fs w) (cwd w) (in_use w) (bind_refused w) (input w) false
              (trace w
               ++ [Bind "" PORT (Some e); CloseSocket;
                   Stderr "Traceback (most recent call last):";
                   Stderr (exception_name (OSError e))])).
Proof.
  unfold bind_error. intros B. script.
  destruct (port_in_use PORT (in_use w)).
  - injection B as <-. script. rewrite <- !app_assoc. reflexivity.
  - rewrite B. script. rewrite <- !app_assoc. reflexivity.
Qed.

End Script.
End ServerFacts.

(** ** What a trace shows *)

Module TraceFacts.
Import socketserver HandlerFacts ServerFacts.

Lemma stdout_of_app a b : stdout_of (a ++ b) = (stdout_of a ++ stdout_of b)%list.
Proof.
  induction a as [|x a IH]; [reflexivity|].
  destruct x; cbn [app stdout_of]; now rewrite IH.
Qed.

Lemma replies_in_app a b : replies_in (a ++ b) = (replies_in a ++ replies_in b)%list.
Proof.
  induction a as [|x a IH]; [reflexivity|].
  destruct x; cbn [app replies_in]; now rewrite IH.
Qed.

Lemma binds_of_app a b : binds_of (a ++ b) = (binds_of a ++ binds_of b)%list.
Proof.
  induction a as [|x a IH]; [reflexivity|].
  destruct x; cbn [app binds_of]; now rewrite IH.
Qed.

Lemma quiet_lines lines :
  stdout_of (map Stderr lines) = [] /\ replies_in (map Stderr lines) = []
  /\ binds_of (map Stderr lines) = [].
Proof. induction lines; cbn; auto. Qed.

(** The actions of the server for a connection: it accepts, shows what the
    handler logged and wrote, and closes. *)
Lemma handling_shows self root cwd c :
  stdout_of (handling self root cwd c) = []
  /\ binds_of (handling self root cwd c) = []
  /\ replies_in (handling self root cwd c)
     = [rev (http_server.wfile (snd (Handler_class self root cwd c)))].
Proof.
  unfold handling, handle_request_noblock, verify_request, process_request,
    finish_request, shutdown_request, handle_error, Py.try_except.
  py.
  destruct (quiet_lines
              (http_server.stderr (snd (Handler_class self root cwd c))))
    as (Q1 & Q2 & Q3).
  destruct (Handler_class self root cwd c) as [[[]|e] h]; py;
    [|destruct (is_Exception e); py];
    cbn [app snd stdout_of binds_of replies_in] in *;
    rewrite ?stdout_of_app, ?replies_in_app, ?binds_of_app;
    rewrite Q1, Q2, Q3; auto.
Qed.

Lemma served_shows self root cwd events :
  stdout_of (flat_map (served self root cwd) events) = []
  /\ binds_of (flat_map (served self root cwd) events) = []
  /\ replies_in (flat_map (served self root cwd) events)
     = map (fun c => rev (http_server.wfile (snd (Handler_class self root cwd c))))
           (connections events).
Proof.
  induction events as [|ev rest (I1 & I2 & I3)]; [now cbn|].
  cbn [flat_map]. rewrite stdout_of_app, binds_of_app, replies_in_app, I1, I2, I3.
  destruct ev as [c| | |]; cbn [served connections map]; auto.
  destruct (handling_shows self root cwd c) as (-> & -> & ->). auto.
Qed.

(** The events of any input: nothing interrupts, or there is a first
    interrupt. *)
Lemma first_interrupt events :
  forallb (fun ev => negb (interrupts ev)) events = true
  \/ exists pre ev post,
       events = (pre ++ ev :: post)%list
       /\ forallb (fun ev => negb (interrupts ev)) pre = true
       /\ interrupts ev = true.
Proof.
  induction events as [|ev rest [Q|(pre & ev' & post & -> & Q & I)]].
  - now left.
  - destruct (interrupts ev) eqn:I.
    + right. exists [], ev, rest. auto.
    + left. cbn. now rewrite I.
  - destruct (interrupts ev) eqn:Iv.
    + right. exists [], ev, (pre ++ ev' :: post)%list. auto.
    + right. exists (ev :: pre), ev', post. cbn. rewrite Iv. auto.
Qed.

End TraceFacts.

(** ** What reaches the client *)

Module WireFacts.
Import PyStr http_server.

(** A request with a version gets the status line first. *)
Lemma wire_status_line (request_version : string) (r : response) (code : Z) :
  String.eqb request_version "HTTP/0.9" = false ->
  status r = Some code ->
  exists rest,
    wire request_version r
    = (protocol_version ++ " " ++ str (Z.to_N code) ++ " " ++ reason r ++ CR ++ LF)
      :: rest.
Proof.
  intros V S. unfold wire. rewrite V, S. cbn [negb app]. eexists. reflexivity.
Qed.

(** A request without a version gets the body and nothing else. *)
Lemma wire_old (r : response) :
  wire "HTTP/0.9" r = if is_empty (body r) then [] else [body r].
Proof. reflexivity. Qed.

End WireFacts.

(** ** The claims of the specification *)

Module Claims.
Import PyStr http_server HandlerFacts ServerFacts TraceFacts.

Section Process.
Context {P : Platform}.

(** C9.  The program has no configuration: whatever the command line, the
    environment and the world it is started in, the one address it asks to
    bind is the wildcard address [""] with port 8000, and that is the first
    thing it does. *)
Theorem binds_wildcard_8000 (argv : list string)
        (environ : list (string * string)) (w : world) :
  exists rest,
    trace (snd (python argv environ w))
    = (trace w ++ Bind "" 8000 (bind_error w) :: rest)%list
    /\ binds_of rest = [].
Proof.
  destruct (bind_error w) as [e|] eqn:B.
  - rewrite (python_bind_fails argv environ w e B). cbn [snd trace].
    eexists. split; reflexivity.
  - destruct (first_interrupt (input w)) as [Q|(pre & ev & post & I & Q & S)].
    + rewrite (python_serves argv environ w B Q). cbn [snd trace app].
      eexists. split; [reflexivity|].
      cbn [binds_of]. apply served_shows.
    + rewrite (python_interrupted argv environ w pre ev post B I Q S).
      cbn [snd trace app]. eexists. split; [reflexivity|].
      cbn [binds_of]. rewrite binds_of_app.
      destruct (served_shows httpd (fs w) (cwd w) (pre ++ [ev])) as (_ & -> & _).
      reflexivity.
Qed.


(** C3.  When the socket cannot be bound (the port is in use, or the
    kernel refuses for another reason), the program stops there: the
    [OSError] is not caught, its traceback goes to standard error, the
    status is 1, and the loop is not entered: no event is read. *)
Theorem bind_failure_is_fatal (argv : list string)
        (environ : list (string * string)) (w : world) (e : oserror) :
  bind_error w = Some e ->
  fst (python argv environ w) = Exited 1
  /\ trace (snd (python argv environ w))
     = (trace w ++ [Bind "" 8000 (Some e); CloseSocket;
                    Stderr "Traceback (most recent call last):";
                    Stderr (exception_name (OSError e))])%list
  /\ input (snd (python argv environ w)) = input w.
Proof. intros B. rewrite (python_bind_fails argv environ w e B). now cbn. Qed.



End Process.

Section Requests.
Context {P : Platform}.












End Requests.

(** *** The claims at work *)

Lemma bind_failure_is_fatal_witness :
  bind_error w_busy = Some EADDRINUSE
  /\ (fst (python [] [] w_busy) = Exited 1
      /\ trace (snd (python [] [] w_busy))
         = (trace w_busy
            ++ [Bind "" 8000 (Some EADDRINUSE); CloseSocket;
                Stderr "Traceback (most recent call last):";
                Stderr (exception_name (OSError EADDRINUSE))])%list
      /\ input (snd (python [] [] w_busy)) = input w_busy).
Proof.
  split; [reflexivity|].
  apply (bind_failure_is_fatal [] [] w_busy EADDRINUSE). reflexivity.
Defined.











End Claims.

(** ** The replies, case by case *)

Module ReplyFacts.
Import PyStr http_server HandlerFacts.

Section Exact.
Context {P : Platform}.

Lemma send_header_plain k v h :
  String.eqb (lower k) "connection" = false ->
  send_header k v h
  = (Ok tt,
     with_resp (fun r => mk_response (status r) (reason r)
                           (reply_headers r ++ [(k, v)]) (ended r) (body r)) h).
Proof. intros E. unfold send_header. run. now rewrite E. Qed.

Lemma send_header_close h :
  send_header "Connection" "close" h
  = (Ok tt,
     with_resp (fun r => mk_response (status r) (reason r)
                           (reply_headers r ++ [("Connection", "close")])
                           (ended r) (body r))
       (mk_handler (directory h) (rfile h) (raw_requestline h) (req h) true
                   (wfile h) (stderr h))).
Proof. reflexivity. Qed.

End Exact.

Ltac headers :=
  repeat (first [rewrite send_header_close
                |rewrite send_header_plain by reflexivity]; run).

Section Exact2.
Context {P : Platform}.

(** [send_error], in full. *)
Lemma send_error_exact now client code m e h :
  send_error now client code m e h
  = (Ok tt,
     mk_handler (directory h) (rfile h) (raw_requestline h) (req h) true
       (Reply.error now code m e (Reply.is_head (command (req h))) :: wfile h)
       (stderr h
        ++ [log_line client now
              ("code " ++ str (Z.to_N code) ++ ", message "
               ++ reason (Reply.error now code m e false));
            log_line client now
              (dq ++ requestline (req h) ++ dq ++ " " ++ str (Z.to_N code) ++ " -")])).
Proof.
  unfold send_error, Reply.error.
  destruct (match responses code with Some sl => sl | None => _ end) as [s l].
  cbv zeta. unfold log_error, log_message. run.
  rewrite send_response_run. run. headers.
  unfold Reply.is_head, Reply.opening.
  destruct ((200 <=? code)%Z && _); run; headers.
  - destruct (command (req h)) as [c|].
    + destruct (String.eqb c "HEAD") eqn:E.
      * apply String.eqb_eq in E. subst c. cbn [negb andb]. run.
        rewrite <- app_assoc. reflexivity.
      * replace (match c with "HEAD" => true | _ => false end) with false.
        2:{ symmetry. destruct c as [|a c]; [reflexivity|].
            apply String.eqb_neq in E.
            repeat (match goal with
                    | |- context [match ?x with _ => _ end] =>
                        destruct x; try reflexivity
                    end).
            now destruct E. }
        cbn [negb andb].
        destruct (is_empty _); run; rewrite <- app_assoc; reflexivity.
    + cbn [negb andb]. destruct (is_empty _); run; rewrite <- app_assoc; reflexivity.
  - rewrite <- app_assoc. reflexivity.
Qed.

Lemma is_head_eqb c : Reply.is_head (Some c) = String.eqb c "HEAD".
Proof.
  destruct (String.eqb c "HEAD") eqn:E.
  - apply String.eqb_eq in E. now subst c.
  - apply String.eqb_neq in E. unfold Reply.is_head.
    repeat (match goal with
            | |- context [match ?x with _ => _ end] => destruct x; try reflexivity
            end).
    now destruct E.
Qed.

(** What a step adds to the handler object: a reply and log lines, and
    perhaps the mark that the connection is to be closed. *)
Definition adds (h : handler) (r : response) (h' : handler) : Prop :=
  exists closes lines,
    h' = mk_handler (directory h) (rfile h) (raw_requestline h) (req h) closes
                    (r :: wfile h) (stderr h ++ lines).

Lemma send_head_file_cases root now client p h :
  exists f r h',
    send_head_file root now client p h = (Ok f, h')
    /\ adds h r h'
    /\ Reply.heads now (Reply.is_head (command (req h))) f r.
Proof.
  unfold send_head_file. cbv zeta.
  destruct (endswith p "/").
  - run. rewrite send_error_exact. run.
    do 3 eexists. split; [reflexivity|]. split; [do 2 eexists; reflexivity|].
    constructor.
  - destruct (os.open root p) as [[data mtime]|].
    + run. destruct (not_modified _ _); run; rewrite send_response_run; run; headers.
      * do 3 eexists. split; [reflexivity|]. split; [do 2 eexists; reflexivity|].
        apply Reply.heads_unchanged.
      * do 3 eexists. split; [reflexivity|]. split; [do 2 eexists; reflexivity|].
        apply (Reply.heads_file now _ (guess_type p) data mtime).
    + run. rewrite send_error_exact. run.
      do 3 eexists. split; [reflexivity|]. split; [do 2 eexists; reflexivity|].
      constructor.
Qed.

Lemma list_directory_cases root now client p h :
  exists f r h',
    list_directory root now client p h = (Ok f, h')
    /\ adds h r h'
    /\ Reply.heads now (Reply.is_head (command (req h))) f r.
Proof.
  unfold list_directory.
  destruct (os.listdir root p) as [l|].
  - cbv zeta. run. rewrite send_response_run. run. headers.
    do 3 eexists. split; [reflexivity|]. split; [do 2 eexists; reflexivity|].
    apply Reply.heads_listing.
  - run. rewrite send_error_exact. run.
    do 3 eexists. split; [reflexivity|]. split; [do 2 eexists; reflexivity|].
    constructor.
Qed.

(** [send_head] sends one reply, of one of five kinds, unless the URL does
    not split: then [ValueError] leaves it and nothing is sent. *)
Lemma send_head_cases root now client h :
  send_head root now client h = (Raise ValueError, h)
  \/ exists f r h',
       send_head root now client h = (Ok f, h')
       /\ adds h r h'
       /\ Reply.heads now (Reply.is_head (command (req h))) f r.
Proof.
  unfold send_head. cbv zeta. run.
  destruct (os.isdir root _).
  - destruct (urlsplit_path (path (req h))) as [parts|]; [|now left].
    right. destruct (endswith parts "/"); cbn [negb].
    + destruct (os.isfile root _); [apply send_head_file_cases|].
      destruct (os.isfile root _); [apply send_head_file_cases|].
      apply list_directory_cases.
    + run. rewrite send_response_run. run. headers.
      do 3 eexists. split; [reflexivity|]. split; [do 2 eexists; reflexivity|].
      apply Reply.heads_moved.
  - right. apply send_head_file_cases.
Qed.

End Exact2.

Ltac exact_step :=
  run; headers; rewrite ?protocol_old, ?Bool.andb_false_r;
  first [ rewrite send_error_exact
        | rewrite send_response_run
        | match goal with
          | |- context [match parse_version ?v with _ => _ end] =>
              destruct (parse_version v) as [[? ?]|] eqn:?
          | |- context [match read_headers ?n ?l with _ => _ end] =>
              destruct (read_headers n l) eqn:?
          | |- context [(if ?c then _ else _) _] => destruct c eqn:?
          | |- context [when ?c _ _] => destruct c eqn:?
          end ].

Ltac exact_run := repeat exact_step; run.

Section Answers.
Context {P : Platform}.

(** Where [parse_request] refuses the request it has sent nothing (the
    request line is blank) or one error reply. *)
Lemma parse_request_refuses now client h h' :
  parse_request now client h = (Ok false, h') ->
  wfile h' = wfile h
  \/ exists code m e head,
       wfile h' = Reply.error now code m e head :: wfile h
       /\ In code [400; 431; 505]%Z.
Proof.
  unfold parse_request, parse_request_headers, handle_expect_100. cbv zeta. run.
  destruct (words (rstrip is_crlf (raw_requestline h))) as [|w1 [|w2 [|w3 [|w4 ws]]]] eqn:W.
  all: exact_run; intros E; try discriminate E; injection E as <-;
    cbn [wfile req command Reply.is_head];
    first [ left; reflexivity
          | right; do 4 eexists; split; [reflexivity|cbn [In]; auto 10] ].
Qed.

(** All that a connection can get from the handler. *)
Lemma Handler_answers root cwd c :
  match request_of cwd c with
  | None =>
      answers root cwd c = []
      \/ exists code m e head,
           answers root cwd c = [Reply.error (time c) code m e head]
           /\ In code [400; 414; 431; 505]%Z
  | Some rq =>
      exists m,
        command rq = Some m
        /\ if String.eqb m "GET" then
             answers root cwd c = []
             \/ exists f r,
                  Reply.heads (time c) false f r
                  /\ answers root cwd c = [Reply.sent f r]
           else if String.eqb m "HEAD" then
             answers root cwd c = []
             \/ exists f r,
                  Reply.heads (time c) true f r /\ answers root cwd c = [r]
           else
             answers root cwd c
             = [Reply.error (time c) 501
                  (Some ("Unsupported method (" ++ repr m ++ ")")) None false]
  end.
Proof.
  destruct (request_of cwd c) as [rq|] eqn:R.
  - destruct (Handler_request root cwd c rq R) as (h & m & <- & Hm & D & Wf & E).
    exists m. split; [assumption|]. unfold answers. rewrite E. unfold method_of.
    pose proof (is_head_eqb m) as Hd. rewrite <- Hm in Hd.
    destruct (String.eqb m "GET") eqn:G; [|destruct (String.eqb m "HEAD") eqn:Hh].
    + apply String.eqb_eq in G. subst m. cbn in Hd.
      unfold do_GET. run.
      destruct (send_head_cases root (time c) (peer c) h)
        as [->|(f & r & h' & -> & (cl & l & ->) & K)].
      * left. run. now rewrite Wf.
      * right. rewrite Hd in K. exists f, r. split; [assumption|].
        destruct f; run; now rewrite Wf.
    + unfold do_HEAD. run.
      destruct (send_head_cases root (time c) (peer c) h)
        as [->|(f & r & h' & -> & (cl & l & ->) & K)].
      * left. run. now rewrite Wf.
      * right. rewrite Hd in K. exists f, r. split; [assumption|].
        run. now rewrite Wf.
    + rewrite send_error_exact. cbn [snd wfile]. now rewrite Hd, Wf.
  - unfold answers. rewrite Handler_once.
    unfold request_of in R.
    unfold handle_one_request, try_except, readline.
    destruct (fault c) as [e|] eqn:F.
    { left. now destruct e. }
    run. destruct (lines c) as [|raw rest]; [now left|]. cbn [hd tl] in R. run.
    destruct ((65536 <? _)%N) eqn:Long.
    + right. run. rewrite send_error_exact. run.
      do 4 eexists. split; [reflexivity|]. cbn [In]. auto.
    + destruct (is_empty raw) eqn:E; [now left|]. cbn [orb] in R. run.
      pose proof (parse_request_refuses (time c) (peer c)
                    (mk_handler cwd rest raw (mk_request "" None "" "" []) true [] []))
        as S.
      pose proof (parse_request_run (time c) (peer c)
                    (mk_handler cwd rest raw (mk_request "" None "" "" []) true [] []))
        as S'.
      destruct (parse_request _ _ _) as [[[|]|e] h]; [discriminate| |destruct S'].
      run. destruct (S h eq_refl) as [->|(code & m & e & hd & -> & I)]; [now left|].
      right. exists code, m, e, hd. split; [reflexivity|].
      cbn [In] in *. intuition.
Qed.

End Answers.
End ReplyFacts.

Module ShapeFacts.
Import PyStr http_server HandlerFacts ReplyFacts.

Section Any.
Context {P : Platform}.

Lemma is_empty_eq s : is_empty s = true -> s = "".
Proof. apply String.eqb_eq. Qed.

Lemma error_fits now code m e :
  In code [400; 404; 414; 431; 501; 505]%Z ->
  length_fits (Reply.error now code m e false).
Proof.
  intros I. cbn [In] in I.
  unfold length_fits, Reply.error.
  destruct (match responses code with Some sl => sl | None => _ end) as [s l].
  cbv zeta.
  assert (W : (200 <=? code)%Z && negb ((code =? 204) || (code =? 205) || (code =? 304))%Z
              = true)
    by (repeat (destruct I as [<-|I]; [reflexivity|]); destruct I).
  rewrite W. cbn [reply_headers body andb negb].
  change (headers_get "Content-Length" _)
    with (Some (str (N.of_nat (String.length
                  (error_page code match m with Some m => m | None => s end
                                   match e with Some e => e | None => l end))))).
  destruct (is_empty _) eqn:E; cbn [negb]; [|reflexivity].
  now rewrite (is_empty_eq _ E).
Qed.

Lemma sent_fits now f r : Reply.heads now false f r -> length_fits (Reply.sent f r).
Proof.
  intros [m| |loc|ctype data mtime|page]; cbn [Reply.sent].
  - apply error_fits. cbn [In]. auto.
  - reflexivity.
  - reflexivity.
  - reflexivity.
  - reflexivity.
Qed.

Lemma heads_no_body now f r : Reply.heads now true f r -> body r = "".
Proof.
  intros [m| |loc|ctype data mtime|page]; reflexivity.
Qed.

Lemma error_opens now code m e head :
  exists rest,
    status (Reply.error now code m e head) = Some code
    /\ ended (Reply.error now code m e head) = true
    /\ reply_headers (Reply.error now code m e head)
       = ("Server", version_string) :: ("Date", date_time_string now)
         :: ("Connection", "close") :: rest.
Proof.
  unfold Reply.error.
  destruct (match responses code with Some sl => sl | None => _ end) as [s l].
  cbv zeta. eexists. repeat split.
Qed.

Lemma heads_opens now head f r :
  Reply.heads now head f r ->
  exists code rest,
    status r = Some code /\ ended r = true
    /\ reply_headers r
       = ("Server", version_string) :: ("Date", date_time_string now) :: rest
    /\ ((400 <=? code)%Z = true -> headers_get "Connection" rest = Some "close").
Proof.
  intros [m| |loc|ctype data mtime|page].
  - destruct (error_opens now 404 (Some m) None head) as (rest & A & B & C).
    exists 404%Z, (("Connection", "close") :: rest). auto.
  - exists 304%Z. eexists. repeat split; discriminate.
  - exists 301%Z. eexists. repeat split; discriminate.
  - exists 200%Z. eexists. repeat split; discriminate.
  - exists 200%Z. eexists. repeat split; discriminate.
Qed.

End Any.
End ShapeFacts.

(** ** The serving loop, connection by connection *)

Module LoopFacts.
Import PyStr http_server socketserver ServerFacts TraceFacts.

Lemma accepts_of_app a b : accepts_of (a ++ b) = (accepts_of a ++ accepts_of b)%list.
Proof.
  induction a as [|x a IH]; [reflexivity|].
  destruct x; cbn; now rewrite ?IH.
Qed.

Lemma closes_of_app a b : closes_of (a ++ b) = (closes_of a ++ closes_of b)%list.
Proof.
  induction a as [|x a IH]; [reflexivity|].
  destruct x; cbn; now rewrite ?IH.
Qed.

Lemma lines_neither lines :
  accepts_of (map Stderr lines) = [] /\ closes_of (map Stderr lines) = [].
Proof. induction lines; cbn; auto. Qed.

(** The actions of the server for a connection, in full. *)
Lemma handling_exact self root cwd c :
  handling self root cwd c
  = (Accept (peer c)
     :: map Stderr (stderr (snd (Handler_class self root cwd c)))
     ++ Replies (peer c) (rev (wfile (snd (Handler_class self root cwd c))))
     :: match fst (Handler_class self root cwd c) with
        | Raise e => if is_Exception e then report c else []
        | Ok _ => []
        end
     ++ [CloseRequest (peer c)])%list.
Proof.
  unfold handling, handle_request_noblock, verify_request, process_request,
    finish_request, shutdown_request, handle_error, Py.try_except, report.
  py.
  destruct (Handler_class self root cwd c) as [[[]|e] h]; py;
    [|destruct (is_Exception e); py];
    cbn [app snd fst]; rewrite <- ?app_assoc; reflexivity.
Qed.

Lemma handling_pairs self root cwd c :
  accepts_of (handling self root cwd c) = [peer c]
  /\ closes_of (handling self root cwd c) = [peer c].
Proof.
  rewrite handling_exact.
  destruct (lines_neither (stderr (snd (Handler_class self root cwd c)))) as [A C].
  cbn [accepts_of closes_of].
  rewrite accepts_of_app, closes_of_app, A, C. cbn [app accepts_of closes_of].
  rewrite accepts_of_app, closes_of_app.
  destruct (fst (Handler_class self root cwd c)) as [|e];
    [|destruct (is_Exception e)]; now cbn.
Qed.

Lemma served_pairs self root cwd events :
  accepts_of (flat_map (served self root cwd) events) = map peer (connections events)
  /\ closes_of (flat_map (served self root cwd) events) = map peer (connections events).
Proof.
  induction events as [|ev rest [I1 I2]]; [now cbn|].
  cbn [flat_map]. rewrite accepts_of_app, closes_of_app, I1, I2.
  destruct ev as [c| | |]; cbn [served connections map app]; auto.
  now destruct (handling_pairs self root cwd c) as [-> ->].
Qed.

(** Polls that find nothing and connections that cannot be accepted leave
    no trace. *)
Lemma served_connections self root cwd events :
  flat_map (served self root cwd) events
  = flat_map (handling self root cwd) (connections events).
Proof.
  induction events as [|ev rest IH]; [reflexivity|].
  destruct ev; cbn [flat_map served connections app]; now rewrite IH.
Qed.

End LoopFacts.

(** ** The order of a listing, and the lines of a request *)

Module SortFacts.
Import PyStr http_server.










End SortFacts.

Module LineFacts.
Import PyStr http_server.

Lemma before_app c p q : before c (p ++ String c q) = before c p.
Proof.
  induction p as [|d p IH]; cbn [append before].
  - now rewrite Ascii.eqb_refl.
  - destruct (Ascii.eqb d c); [reflexivity|]. now rewrite IH.
Qed.

Lemma before_before_app a b p q :
  before a (before b (p ++ String a q)) = before a (before b p).
Proof.
  induction p as [|d p IH]; cbn [append before].
  - destruct (Ascii.eqb a b) eqn:E; cbn [before]; [reflexivity|].
    now rewrite Ascii.eqb_refl.
  - destruct (Ascii.eqb d b); [reflexivity|]. cbn [before].
    destruct (Ascii.eqb d a); [reflexivity|]. now rewrite IH.
Qed.

(** The header lines a request may have before there are too many. *)
Lemma read_headers_many many rest count :
  (length many + count = 100)%nat ->
  Forall (fun l => (N.of_nat (String.length l) <= MAXLINE)%N
                   /\ l <> CR ++ LF /\ l <> LF /\ l <> "") many ->
  (N.of_nat (String.length (hd "" rest)) <= MAXLINE)%N ->
  read_headers count (many ++ rest) = TooManyHeaders.
Proof.
  revert count. induction many as [|l many IH]; intros count L F Hs.
  - cbn [length Nat.add] in L. subst count. cbn [app].
    destruct rest as [|l rest]; [reflexivity|]. cbn [hd] in Hs. cbn [read_headers].
    apply N.ltb_ge in Hs. now rewrite Hs.
  - inversion F as [|? ? (Sl & N1 & N2 & N3) F']; subst. cbn [app read_headers].
    apply N.ltb_ge in Sl. rewrite Sl.
    cbn [length] in L.
    assert (C : (MAXHEADERS <? S count)%nat = false)
      by (apply Nat.ltb_ge; unfold MAXHEADERS; lia).
    rewrite C.
    apply String.eqb_neq in N1, N2, N3. rewrite N1, N2, N3. cbn [orb].
    rewrite IH; [reflexivity|lia|assumption|assumption].
Qed.

End LineFacts.

(** ** Further properties of the script *)

Module Behaviour.
Import PyStr http_server HandlerFacts ServerFacts TraceFacts.
Import ReplyFacts ShapeFacts LoopFacts SortFacts LineFacts.

Section Loop.
Context {P : Platform}.

(** X1.  Whatever happens in a run (the bind fails, connections fail, the
    process is interrupted), the connections the server has closed are the
    connections it has accepted, in the same order: none is left open. *)
Theorem every_accept_is_closed (argv : list string)
        (environ : list (string * string)) (w : world) :
  exists t,
    trace (snd (python argv environ w)) = (trace w ++ t)%list
    /\ closes_of t = accepts_of t.
Proof.
  destruct (bind_error w) as [e|] eqn:B.
  - rewrite (python_bind_fails argv environ w e B). cbn [snd trace].
    eexists. split; reflexivity.
  - destruct (first_interrupt (input w)) as [Q|(pre & ev & post & I & Q & S)].
    + rewrite (python_serves argv environ w B Q). cbn [snd trace].
      eexists. split; [reflexivity|]. cbn [app accepts_of closes_of].
      now destruct (served_pairs httpd (fs w) (cwd w) (input w)) as [-> ->].
    + rewrite (python_interrupted argv environ w pre ev post B I Q S).
      cbn [snd trace]. eexists. split; [reflexivity|]. cbn [app accepts_of closes_of].
      rewrite accepts_of_app, closes_of_app.
      now destruct (served_pairs httpd (fs w) (cwd w) (pre ++ [ev])) as [-> ->].
Qed.

(** X2.  An interrupt ends the serving at once: the events that come after
    it are left unread, and the connections accepted are those that came
    before it (and the one that was being handled, if it came then). *)
Theorem nothing_after_the_interrupt (argv : list string)
        (environ : list (string * string)) (w : world)
        (pre : list event) (ev : event) (post : list event) :
  bind_error w = None ->
  input w = (pre ++ ev :: post)%list ->
  forallb (fun ev => negb (interrupts ev)) pre = true ->
  interrupts ev = true ->
  input (snd (python argv environ w)) = post
  /\ exists t,
       trace (snd (python argv environ w)) = (trace w ++ t)%list
       /\ accepts_of t = map peer (connections (pre ++ [ev])).
Proof.
  intros B I Q S. rewrite (python_interrupted argv environ w pre ev post B I Q S).
  cbn [snd trace input]. split; [reflexivity|].
  eexists. split; [reflexivity|]. cbn [app accepts_of].
  rewrite accepts_of_app.
  destruct (served_pairs httpd (fs w) (cwd w) (pre ++ [ev])) as [-> _].
  cbn [accepts_of]. now rewrite app_nil_r.
Qed.

(** X3.  A poll that finds nothing and an [accept] that fails with
    [OSError] leave no trace and do not stop the loop: what the process does
    is the start-up and then, for each connection it accepts, what
    [_handle_request_noblock] does for that connection. *)
Theorem failed_accepts_are_ignored (argv : list string)
        (environ : list (string * string)) (w : world) :
  bind_error w = None ->
  forallb (fun ev => negb (interrupts ev)) (input w) = true ->
  fst (python argv environ w) = Running
  /\ trace (snd (python argv environ w))
     = (trace w
        ++ [Bind "" 8000 None; Listen; Stdout ("good morning" ++ LF)]
        ++ flat_map (handling httpd (fs w) (cwd w)) (connections (input w)))%list.
Proof.
  intros B Q. rewrite (python_serves argv environ w B Q). cbn [fst snd trace].
  now rewrite served_connections.
Qed.

(** X4.  A connection that breaks while the request line is read gets no
    reply, is closed, and leaves a diagnostic on standard error: the line
    that [handle_one_request] logs for a time-out, the report of
    [handle_error] for any other [Exception].  The server goes on. *)
Theorem broken_connection_is_reported (w : world) (c : connection) (e : exception) :
  fault c = Some e ->
  is_Exception e = true ->
  fst (socketserver.handle_request_noblock httpd (inr c) w) = Returned tt
  /\ trace (snd (socketserver.handle_request_noblock httpd (inr c) w))
     = (trace w
        ++ Accept (peer c)
        :: match e with
           | TimeoutError =>
               [Stderr (log_line (peer c) (time c)
                          "Request timed out: TimeoutError('timed out')");
                Replies (peer c) []]
           | _ => Replies (peer c) [] :: report c
           end
        ++ [CloseRequest (peer c)])%list.
Proof.
  intros F E.
  rewrite handle_request_noblock_run, stops_interrupts.
  cbn [fst snd trace extend interrupts]. rewrite F, E. cbn [negb].
  split; [reflexivity|]. f_equal. rewrite handling_exact.
  cbn [socketserver.Handler_class httpd]. rewrite Handler_once.
  unfold handle_one_request, try_except, readline. rewrite F.
  destruct e; try discriminate E; reflexivity.
Qed.

(** X5.  While one instance serves, the port is taken: a second instance
    started in the world the first one has made fails to bind, ends with
    status 1, and reads none of the events. *)
Theorem a_second_instance_fails (argv argv' : list string)
        (environ environ' : list (string * string)) (w : world)
        (events : list event) :
  bind_error w = None ->
  forallb (fun ev => negb (interrupts ev)) (input w) = true ->
  fst (python argv' environ' (with_input events (snd (python argv environ w))))
  = Exited 1
  /\ input (snd (python argv' environ'
                   (with_input events (snd (python argv environ w)))))
     = events.
Proof.
  intros B Q. rewrite (python_serves argv environ w B Q). cbn [snd].
  rewrite (python_bind_fails argv' environ' _ EADDRINUSE).
  - split; reflexivity.
  - unfold bind_error, with_input. cbn [in_use socketserver.port_in_use existsb].
    now rewrite Z.eqb_refl.
Qed.

End Loop.

Section Outside.
Context {P : Platform}.

Lemma handling_same root1 root2 cwd c :
  os_subtree root1 cwd = os_subtree root2 cwd ->
  handling httpd root1 cwd c = handling httpd root2 cwd c.
Proof.
  intros S. rewrite !handling_exact. cbn [socketserver.Handler_class httpd].
  now rewrite (Confinement.Handler_same root1 root2 cwd S c).
Qed.

Lemma served_same root1 root2 cwd events :
  os_subtree root1 cwd = os_subtree root2 cwd ->
  flat_map (served httpd root1 cwd) events = flat_map (served httpd root2 cwd) events.
Proof.
  intros S. induction events as [|ev rest IH]; [reflexivity|].
  cbn [flat_map]. rewrite IH. f_equal.
  destruct ev; cbn [served]; auto using handling_same.
Qed.

(** X6.  Nothing of the file system outside the working directory shows
    in what the process does: with any other file system that has the same
    tree at the working directory, the process ends in the same state after
    the same trace, whatever the requests and their methods. *)
Theorem files_outside_do_not_show (argv : list string)
        (environ : list (string * string)) (w : world) (root : os.node) :
  os_subtree root (cwd w) = os_subtree (fs w) (cwd w) ->
  fst (python argv environ (with_fs root w)) = fst (python argv environ w)
  /\ trace (snd (python argv environ (with_fs root w)))
     = trace (snd (python argv environ w)).
Proof.
  intros S.
  destruct (bind_error w) as [e|] eqn:B.
  - rewrite (python_bind_fails argv environ w e B).
    rewrite (python_bind_fails argv environ (with_fs root w) e B).
    split; reflexivity.
  - destruct (first_interrupt (input w)) as [Q|(pre & ev & post & I & Q & St)].
    + rewrite (python_serves argv environ w B Q).
      rewrite (python_serves argv environ (with_fs root w) B Q).
      cbn [fst snd trace with_fs fs cwd input]. split; [reflexivity|].
      now rewrite (served_same root (fs w) (cwd w) (input w) S).
    + rewrite (python_interrupted argv environ w pre ev post B I Q St).
      rewrite (python_interrupted argv environ (with_fs root w) pre ev post B I Q St).
      cbn [fst snd trace with_fs fs cwd input]. split; [reflexivity|].
      now rewrite (served_same root (fs w) (cwd w) (pre ++ [ev]) S).
Qed.

End Outside.

Section Replies.
Context {P : Platform}.

(** X7.  A connection gets one reply at most, whatever the client sends:
    more requests than one, or [Connection: keep-alive].  The handler speaks
    HTTP/1.0 and closes after the first request. *)
Theorem one_reply_at_most (root : os.node) (cwd : string) (c : connection) :
  (length (answers root cwd c) <= 1)%nat.
Proof.
  pose proof (Handler_answers root cwd c) as A.
  destruct (request_of cwd c) as [rq|].
  - destruct A as (m & _ & A).
    destruct (String.eqb m "GET"); [|destruct (String.eqb m "HEAD")].
    + destruct A as [->|(f & r & _ & ->)]; cbn; lia.
    + destruct A as [->|(f & r & _ & ->)]; cbn; lia.
    + rewrite A. cbn. lia.
  - destruct A as [->|(code & m & e & hd & -> & _)]; cbn; lia.
Qed.

(** X8.  In every reply to a request that is not [HEAD], the
    [Content-Length] header, if there is one, is the length of the body sent;
    and a reply without that header has no body. *)
Theorem content_length_is_body_length (root : os.node) (cwd : string)
        (c : connection) (rq : request) (reply : response) :
  request_of cwd c = Some rq ->
  command rq <> Some "HEAD" ->
  In reply (answers root cwd c) ->
  length_fits reply.
Proof.
  intros R N I.
  pose proof (Handler_answers root cwd c) as A. rewrite R in A.
  destruct A as (m & Hm & A).
  destruct (String.eqb m "GET"); [|destruct (String.eqb m "HEAD") eqn:Hd].
  - destruct A as [A|(f & r & K & A)]; rewrite A in I;
      [destruct I|destruct I as [<-|[]]].
    now apply (sent_fits (time c)).
  - apply String.eqb_eq in Hd. subst m. now destruct N.
  - rewrite A in I. destruct I as [<-|[]]. apply error_fits. cbn [In]. auto 10.
Qed.

(** X9.  A reply to a [HEAD] request has no body, whether the file is
    there or not. *)
Theorem head_gets_no_body (root : os.node) (cwd : string)
        (c : connection) (rq : request) (reply : response) :
  request_of cwd c = Some rq ->
  command rq = Some "HEAD" ->
  In reply (answers root cwd c) ->
  body reply = "".
Proof.
  intros R Hc I.
  pose proof (Handler_answers root cwd c) as A. rewrite R in A.
  destruct A as (m & Hm & A). rewrite Hc in Hm. injection Hm as <-.
  cbn in A.
  destruct A as [A|(f & r & K & A)]; rewrite A in I;
      [destruct I|destruct I as [<-|[]]].
  now apply (heads_no_body (time c) f).
Qed.

(** X10.  Every reply has a status, a [Server] and a [Date] header before
    any other, and its headers are ended; every reply with a status from 400
    on says [Connection: close]. *)
Theorem replies_open_alike (root : os.node) (cwd : string) (c : connection)
        (reply : response) :
  In reply (answers root cwd c) ->
  exists code rest,
    status reply = Some code
    /\ ended reply = true
    /\ reply_headers reply
       = ("Server", version_string) :: ("Date", date_time_string (time c)) :: rest
    /\ ((400 <=? code)%Z = true -> headers_get "Connection" rest = Some "close").
Proof.
  intros I.
  pose proof (Handler_answers root cwd c) as A.
  assert (E : forall code m e hd,
             exists code' rest,
               status (Reply.error (time c) code m e hd) = Some code'
               /\ ended (Reply.error (time c) code m e hd) = true
               /\ reply_headers (Reply.error (time c) code m e hd)
                  = ("Server", version_string)
                    :: ("Date", date_time_string (time c)) :: rest
               /\ ((400 <=? code')%Z = true
                   -> headers_get "Connection" rest = Some "close")).
  { intros code m e hd.
    destruct (error_opens (time c) code m e hd) as (rest & S & En & Hs).
    exists code, (("Connection", "close") :: rest). auto. }
  destruct (request_of cwd c) as [rq|].
  - destruct A as (m & _ & A).
    destruct (String.eqb m "GET"); [|destruct (String.eqb m "HEAD")].
    + destruct A as [A|(f & r & K & A)]; rewrite A in I;
      [destruct I|destruct I as [<-|[]]].
      destruct (heads_opens _ _ _ _ K) as (code & rest & S & En & Hs & Cl).
      exists code, rest. destruct f; cbn [Reply.sent Reply.with_body status ended
                                           reply_headers]; auto.
    + destruct A as [A|(f & r & K & A)]; rewrite A in I;
      [destruct I|destruct I as [<-|[]]].
      now apply (heads_opens _ _ _ _ K).
    + rewrite A in I. destruct I as [<-|[]]. apply E.
  - destruct A as [A|(code & m & e & hd & A & _)]; rewrite A in I;
      [destruct I|destruct I as [<-|[]]]. apply E.
Qed.

End Replies.

Section Requests.
Context {P : Platform}.

(** The handler of a working connection whose first line is not too long
    and not empty goes by what [parse_request] says. *)
Lemma Handler_line root cwd c line rest :
  fault c = None ->
  lines c = line :: rest ->
  (N.of_nat (String.length line) <= 65536)%N ->
  words (rstrip is_crlf line) <> [] ->
  Handler root cwd c
  = handle_one_request root (time c) (peer c) None
      (mk_handler cwd (line :: rest) "" (mk_request "" None "" "" []) true [] [])
  /\ (65536 <? N.of_nat (String.length line))%N = false
  /\ is_empty line = false.
Proof.
  intros F L S W. rewrite Handler_once, F, L. split; [reflexivity|].
  split; [now apply N.ltb_ge|].
  destruct (is_empty line) eqn:E; [|reflexivity].
  apply String.eqb_eq in E. subst line. now destruct W.
Qed.

(** X14.  A request with a hundred header lines or more before the blank
    line is answered 431, [Too many headers]: a blank line that comes as the
    101st line is one too many. *)
Theorem too_many_headers_is_431 (root : os.node) (cwd : string) (c : connection)
        (line : string) (many rest : list string)
        (m p v b : string) (n : Z * Z) :
  fault c = None ->
  lines c = line :: (many ++ rest)%list ->
  (N.of_nat (String.length line) <= 65536)%N ->
  words (rstrip is_crlf line) = [m; p; v] ->
  parse_version v = Some (b, n) ->
  version_ge n (2, 0)%Z = false ->
  length many = 100%nat ->
  Forall (fun l => (N.of_nat (String.length l) <= MAXLINE)%N
                   /\ l <> CR ++ LF /\ l <> LF /\ l <> "") many ->
  (N.of_nat (String.length (hd "" rest)) <= MAXLINE)%N ->
  answers root cwd c
  = [Reply.error (time c) 431 (Some "Too many headers")
       (Some "got more than 100 headers") (Reply.is_head (Some m))].
Proof.
  intros F L S W V G Hl Hm Hr.
  destruct (Handler_line root cwd c line (many ++ rest) F L S) as (E & Long & Ne).
  { rewrite W. discriminate. }
  unfold answers. rewrite E.
  unfold handle_one_request, try_except, readline. run. rewrite Long, Ne. run.
  unfold parse_request, parse_request_headers. cbv zeta. run. rewrite W. run.
  rewrite V. run. rewrite protocol_old, Bool.andb_false_r. run. rewrite G. run.
  pose proof (read_headers_many many rest 0) as T.
  destruct (startswith p "//"); run; rewrite T by (lia || assumption);
    rewrite send_error_exact; reflexivity.
Qed.

(** X15.  The last word of a request line of three words or more is the
    version: if it does not read as [HTTP/<major>.<minor>] the answer is 400,
    and if it reads as version 2.0 or later the answer is 505. *)
Theorem version_is_checked (root : os.node) (cwd : string) (c : connection)
        (line : string) (rest ws : list string) :
  fault c = None ->
  lines c = line :: rest ->
  (N.of_nat (String.length line) <= 65536)%N ->
  words (rstrip is_crlf line) = ws ->
  (3 <= length ws)%nat ->
  match parse_version (last ws "") with
  | None =>
      answers root cwd c
      = [Reply.error (time c) 400
           (Some ("Bad request version (" ++ repr (last ws "") ++ ")")) None false]
  | Some (base_version_number, version_number) =>
      version_ge version_number (2, 0)%Z = true ->
      answers root cwd c
      = [Reply.error (time c) 505
           (Some ("Invalid HTTP version (" ++ base_version_number ++ ")"))
           None false]
  end.
Proof.
  intros F L S W Hl.
  destruct (Handler_line root cwd c line rest F L S) as (E & Long & Ne).
  { rewrite W. destruct ws; [cbn in Hl; lia|discriminate]. }
  unfold answers. rewrite E.
  unfold handle_one_request, try_except, readline. run. rewrite Long, Ne. run.
  unfold parse_request. cbv zeta. run. rewrite W.
  destruct ws as [|w1 [|w2 [|w3 ws]]]; try (cbn in Hl; lia).
  set (v := last (w1 :: w2 :: w3 :: ws) "").
  cbn [length Nat.eqb Nat.leb]. run. fold v.
  destruct (parse_version v) as [[b n]|].
  - intros G. run. rewrite protocol_old, Bool.andb_false_r. run. rewrite G. run.
    rewrite send_error_exact. reflexivity.
  - run. rewrite send_error_exact. reflexivity.
Qed.

(** A connection that sends nothing, or a blank line. *)
Lemma Handler_silence root cwd c :
  fault c = None ->
  (N.of_nat (String.length (hd "" (lines c))) <= 65536)%N ->
  words (rstrip is_crlf (hd "" (lines c))) = [] ->
  Handler root cwd c
  = (Ok tt,
     mk_handler cwd (tl (lines c)) (hd "" (lines c))
       (mk_request (rstrip is_crlf (hd "" (lines c)))
          None "" (if is_empty (hd "" (lines c)) then "" else default_request_version)
          [])
       true [] []).
Proof.
  intros F S W. rewrite Handler_once.
  unfold handle_one_request, try_except, readline. rewrite F. run.
  destruct (lines c) as [|line rest]; [reflexivity|]. cbn [hd tl] in *. run.
  apply N.ltb_ge in S. rewrite S.
  destruct (is_empty line) eqn:E.
  - apply String.eqb_eq in E. subst line. reflexivity.
  - run. unfold parse_request. cbv zeta. run. rewrite W. reflexivity.
Qed.

(** X16.  A connection that sends nothing, or a blank line, gets no reply
    and no line in the log; the handler returns and the connection is
    closed. *)
Theorem silence_gets_no_reply (root : os.node) (cwd : string) (c : connection) :
  fault c = None ->
  (N.of_nat (String.length (hd "" (lines c))) <= 65536)%N ->
  words (rstrip is_crlf (hd "" (lines c))) = [] ->
  fst (Handler root cwd c) = Ok tt
  /\ answers root cwd c = []
  /\ stderr (snd (Handler root cwd c)) = []
  /\ close_connection (snd (Handler root cwd c)) = true.
Proof.
  intros F S W. unfold answers. rewrite (Handler_silence root cwd c F S W).
  repeat split.
Qed.

(** X17.  A request line of more than 65536 characters is answered 414,
    without being parsed. *)
Theorem long_request_line_is_414 (root : os.node) (cwd : string) (c : connection)
        (line : string) (rest : list string) :
  fault c = None ->
  lines c = line :: rest ->
  (65536 < N.of_nat (String.length line))%N ->
  answers root cwd c = [Reply.error (time c) 414 None None false].
Proof.
  intros F L S. unfold answers. rewrite Handler_once.
  unfold handle_one_request, try_except, readline. rewrite F, L. run.
  apply N.ltb_lt in S. rewrite S. run. rewrite send_error_exact. reflexivity.
Qed.

(** X11.  A [GET] for a directory whose URL lacks the final slash is
    answered 301, with the URL with the slash added for [Location], an empty
    body and [Content-Length: 0]. *)
Theorem directory_without_slash_is_moved (root : os.node) (cwd : string)
        (c : connection) (rq : request) (parts : string) :
  request_of cwd c = Some rq ->
  command rq = Some "GET" ->
  os.isdir root (translate_path cwd (path rq)) = true ->
  urlsplit_path (path rq) = Some parts ->
  endswith parts "/" = false ->
  answers root cwd c = [Reply.moved (time c) (redirect_url (path rq))].
Proof.
  intros R G D U E.
  cbv zeta. unfold answers.
  destruct (Handler_request root cwd c rq R) as (h & m & <- & Hm & Hd & Wf & ->).
  rewrite G in Hm. injection Hm as <-.
  unfold method_of. cbn [String.eqb Ascii.eqb Bool.eqb].
  unfold do_GET, send_head. cbv zeta. run. rewrite Hd, D, U, E. run.
  rewrite send_response_run. run. headers. now rewrite Wf.
Qed.


(** X13.  The query and the fragment of a URL name nothing: the path the
    handler opens is the same with or without them. *)
Theorem query_and_fragment_name_nothing (cwd p q : string) :
  translate_path cwd (p ++ "?" ++ q) = translate_path cwd p
  /\ translate_path cwd (p ++ "#" ++ q) = translate_path cwd p.
Proof.
  unfold translate_path. cbv zeta. split.
  - change (p ++ "?" ++ q) with (p ++ String "?" q). now rewrite before_app.
  - change (p ++ "#" ++ q) with (p ++ String "#" q).
    now rewrite before_before_app.
Qed.

(** X19.  A [HEAD] request for a file is answered with the head of the
    reply that [GET] gets: status 200, the type, the length of the file and
    its modification time, and no body; or 304 if the client has the file. *)
Theorem head_of_a_file (root : os.node) (cwd : string) (c : connection)
        (rq : request) (data : string) (mtime : Z) :
  request_of cwd c = Some rq ->
  command rq = Some "HEAD" ->
  os.open root (translate_path cwd (path rq)) = Some (data, mtime) ->
  answers root cwd c
  = [if not_modified (headers rq) mtime then Reply.unchanged (time c)
     else Reply.file (time c) (guess_type (translate_path cwd (path rq)))
                     (String.length data) mtime].
Proof.
  intros R G O.
  cbv zeta. unfold answers.
  destruct (Handler_request root cwd c rq R) as (h & m & <- & Hm & Hd & Wf & ->).
  rewrite G in Hm. injection Hm as <-.
  assert (S : endswith (translate_path cwd (path (req h))) "/" = false
              /\ os.isdir root (translate_path cwd (path (req h))) = false).
  { unfold os.open, os.isdir, os.stat in *.
    destruct (is_empty _); [discriminate|].
    destruct (os.walk [] root _) as [[anc [d t|es]]|]; try discriminate.
    destruct (endswith _ "/"); [discriminate|]. auto. }
  destruct S as [S D].
  unfold method_of. cbn [String.eqb Ascii.eqb Bool.eqb].
  unfold do_HEAD, send_head. cbv zeta. run. rewrite Hd, D.
  unfold send_head_file. cbv zeta. rewrite S, O. run.
  destruct (not_modified (headers (req h)) mtime); run;
    rewrite send_response_run; run; headers; now rewrite Wf.
Qed.

(** X18.  The date a reply gives as [Last-Modified] comes back: a [GET]
    for the same file that carries it as [If-Modified-Since] (and has no
    [If-None-Match]) is answered 304, provided the platform reads the dates
    it writes. *)
Theorem last_modified_comes_back (root : os.node) (cwd : string) (c : connection)
        (rq : request) (data : string) (mtime : Z) :
  request_of cwd c = Some rq ->
  command rq = Some "GET" ->
  os.open root (translate_path cwd (path rq)) = Some (data, mtime) ->
  headers_get "If-Modified-Since" (headers rq) = Some (date_time_string mtime) ->
  headers_get "If-None-Match" (headers rq) = None ->
  parsedate_utc (formatdate mtime) = Some mtime ->
  answers root cwd c = [Reply.unchanged (time c)].
Proof.
  intros R G O I N Pd.
  assert (M : not_modified (headers rq) mtime = true).
  { unfold not_modified, headers_in. rewrite I, N. cbn [andb negb].
    unfold date_time_string. rewrite Pd. apply Z.leb_refl. }
  cbv zeta. unfold answers.
  destruct (Handler_request root cwd c rq R) as (h & m & <- & Hm & Hd & Wf & ->).
  rewrite G in Hm. injection Hm as <-.
  assert (S : endswith (translate_path cwd (path (req h))) "/" = false
              /\ os.isdir root (translate_path cwd (path (req h))) = false).
  { unfold os.open, os.isdir, os.stat in *.
    destruct (is_empty _); [discriminate|].
    destruct (os.walk [] root _) as [[anc [d t|es]]|]; try discriminate.
    destruct (endswith _ "/"); [discriminate|]. auto. }
  destruct S as [S D].
  unfold method_of. cbn [String.eqb Ascii.eqb Bool.eqb].
  unfold do_GET, send_head. cbv zeta. run. rewrite Hd, D.
  unfold send_head_file. cbv zeta. rewrite S, O. run. rewrite M. run.
  rewrite send_response_run. run. now rewrite Wf.
Qed.

(** X20.  A [GET] for any directory that holds a file [index.html], by a
    URL that ends with a slash, is answered with that file. *)
Theorem index_of_a_directory (root : os.node) (cwd : string) (c : connection)
        (rq : request) (parts data : string) (mtime : Z) :
  request_of cwd c = Some rq ->
  command rq = Some "GET" ->
  os.isdir root (translate_path cwd (path rq)) = true ->
  urlsplit_path (path rq) = Some parts ->
  endswith parts "/" = true ->
  os.open root (posixpath.join (translate_path cwd (path rq)) "index.html")
  = Some (data, mtime) ->
  answers root cwd c
  = [if not_modified (headers rq) mtime then Reply.unchanged (time c)
     else Reply.with_body
            (Reply.file (time c)
               (guess_type (posixpath.join (translate_path cwd (path rq)) "index.html"))
               (String.length data) mtime)
            data].
Proof.
  intros R G D U E O.
  cbv zeta. unfold answers.
  destruct (Handler_request root cwd c rq R) as (h & m & <- & Hm & Hd & Wf & ->).
  rewrite G in Hm. injection Hm as <-.
  assert (S : endswith (posixpath.join (translate_path cwd (path (req h))) "index.html")
                       "/" = false
              /\ os.isfile root
                   (posixpath.join (translate_path cwd (path (req h))) "index.html")
                 = true).
  { unfold os.open, os.isfile, os.stat in O |- *.
    destruct (is_empty _); [discriminate|].
    destruct (os.walk [] root _) as [[anc [d t|es]]|]; try discriminate.
    destruct (endswith (posixpath.join _ _) "/"); [discriminate|]. auto. }
  destruct S as [S I].
  unfold method_of. cbn [String.eqb Ascii.eqb Bool.eqb].
  unfold do_GET, send_head. cbv zeta. run. rewrite Hd, D, U, E. run. rewrite I.
  unfold send_head_file. cbv zeta. rewrite S, O. run.
  destruct (not_modified (headers (req h)) mtime); run;
    rewrite send_response_run; run; headers; now rewrite Wf.
Qed.

(** X21.  A request line of two words is an HTTP/0.9 request, and only
    [GET] can be asked that way: any other command is answered 400. *)
Theorem old_requests_are_get_only (root : os.node) (cwd : string) (c : connection)
        (line : string) (rest : list string) (m p : string) :
  fault c = None ->
  lines c = line :: rest ->
  (N.of_nat (String.length line) <= 65536)%N ->
  words (rstrip is_crlf line) = [m; p] ->
  m <> "GET" ->
  answers root cwd c
  = [Reply.error (time c) 400
       (Some ("Bad HTTP/0.9 request type (" ++ repr m ++ ")")) None false].
Proof.
  intros F L S W N.
  destruct (Handler_line root cwd c line rest F L S) as (E & Long & Ne).
  { rewrite W. discriminate. }
  unfold answers. rewrite E.
  unfold handle_one_request, try_except, readline. run. rewrite Long, Ne. run.
  unfold parse_request. cbv zeta. run. rewrite W. run.
  apply String.eqb_neq in N. rewrite N. run.
  rewrite send_error_exact. reflexivity.
Qed.

(** X22.  A client that asks the HTTP/0.9 way ([GET] and a path, no
    version) gets the body and nothing else: no status line and no headers
    reach it. *)
Theorem old_clients_get_the_body_only (root : os.node) (cwd : string)
        (c : connection) (rq : request) (p : string) :
  request_of cwd c = Some rq ->
  words (rstrip is_crlf (hd "" (lines c))) = ["GET"; p] ->
  request_version rq = "HTTP/0.9"
  /\ map (wire (request_version rq)) (answers root cwd c)
     = map (fun reply => if is_empty (body reply) then [] else [body reply])
           (answers root cwd c).
Proof.
  intros R W.
  assert (V : request_version rq = "HTTP/0.9").
  { unfold request_of in R.
    destruct (fault c); [discriminate|].
    destruct (_ || _); [discriminate|].
    revert R. unfold parse_request, parse_request_headers, handle_expect_100.
    cbv zeta. run. rewrite W. run.
    exact_run; intros E; try discriminate E; injection E as <-; reflexivity. }
  split; [assumption|]. now rewrite V.
Qed.

End Requests.

(** *** The properties at work *)


Lemma nothing_after_the_interrupt_witness :
  let w := w0 [Connect (client "GET / HTTP/1.1" []); Interrupt;
               Connect (client "GET /secret.txt HTTP/1.1" [])] in
  input (snd (python [] [] w)) = [Connect (client "GET /secret.txt HTTP/1.1" [])]
  /\ exists t,
       trace (snd (python [] [] w)) = (trace w ++ t)%list
       /\ accepts_of t
          = map peer (connections ([Connect (client "GET / HTTP/1.1" [])]
                                   ++ [Interrupt])).
Proof.
  apply (nothing_after_the_interrupt [] []
           (w0 [Connect (client "GET / HTTP/1.1" []); Interrupt;
                Connect (client "GET /secret.txt HTTP/1.1" [])])
           [Connect (client "GET / HTTP/1.1" [])] Interrupt
           [Connect (client "GET /secret.txt HTTP/1.1" [])]);
    reflexivity.
Defined.

Lemma failed_accepts_are_ignored_witness :
  let w := w0 [Idle; AcceptFails EACCES; Connect (client "GET / HTTP/1.1" []); Idle] in
  fst (python [] [] w) = Running
  /\ trace (snd (python [] [] w))
     = (trace w
        ++ [Bind "" 8000 None; Listen; Stdout ("good morning" ++ LF)]
        ++ flat_map (handling httpd (fs w) (cwd w)) (connections (input w)))%list.
Proof.
  apply (failed_accepts_are_ignored [] []
           (w0 [Idle; AcceptFails EACCES; Connect (client "GET / HTTP/1.1" []); Idle]));
    reflexivity.
Defined.

Lemma broken_connection_is_reported_witness :
  let w := w0 [] in
  let c := broken ConnectionResetError in
  fst (socketserver.handle_request_noblock httpd (inr c) w) = Returned tt
  /\ trace (snd (socketserver.handle_request_noblock httpd (inr c) w))
     = (trace w
        ++ Accept (peer c) :: (Replies (peer c) [] :: report c)
        ++ [CloseRequest (peer c)])%list.
Proof.
  apply (broken_connection_is_reported (w0 [])
           (broken ConnectionResetError) ConnectionResetError);
    reflexivity.
Defined.

Lemma a_second_instance_fails_witness :
  let w := w0 [Idle] in
  let events := [Connect (client "GET / HTTP/1.1" [])] in
  fst (python [] [] (with_input events (snd (python [] [] w)))) = Exited 1
  /\ input (snd (python [] [] (with_input events (snd (python [] [] w))))) = events.
Proof.
  apply (a_second_instance_fails [] [] [] [] (w0 [Idle])
           [Connect (client "GET / HTTP/1.1" [])]);
    reflexivity.
Defined.

Lemma files_outside_do_not_show_witness :
  let w := w0 [Connect (client "GET /../secret.txt HTTP/1.1" [])] in
  fst (python [] [] (with_fs www' w)) = fst (python [] [] w)
  /\ trace (snd (python [] [] (with_fs www' w))) = trace (snd (python [] [] w)).
Proof.
  apply (files_outside_do_not_show [] []
           (w0 [Connect (client "GET /../secret.txt HTTP/1.1" [])]) www').
  reflexivity.
Defined.

Lemma content_length_is_body_length_witness :
  let c := client "GET /nope HTTP/1.1" [] in
  length_fits (nth 0 (answers www "/srv/www" c) empty_response).
Proof.
  apply (content_length_is_body_length www "/srv/www"
           (client "GET /nope HTTP/1.1" [])
           (mk_request "GET /nope HTTP/1.1" (Some "GET") "/nope" "HTTP/1.1" [])
           (nth 0 (answers www "/srv/www" (client "GET /nope HTTP/1.1" []))
                empty_response)).
  - vm_compute. reflexivity.
  - discriminate.
  - vm_compute. left. reflexivity.
Defined.

Lemma head_gets_no_body_witness :
  let c := client "HEAD /nope HTTP/1.1" [] in
  body (nth 0 (answers www "/srv/www" c) empty_response) = "".
Proof.
  apply (head_gets_no_body www "/srv/www"
           (client "HEAD /nope HTTP/1.1" [])
           (mk_request "HEAD /nope HTTP/1.1" (Some "HEAD") "/nope" "HTTP/1.1" [])
           (nth 0 (answers www "/srv/www" (client "HEAD /nope HTTP/1.1" []))
                empty_response)).
  - vm_compute. reflexivity.
  - reflexivity.
  - vm_compute. left. reflexivity.
Defined.

Lemma replies_open_alike_witness :
  let c := client "BREW /pot HTTP/1.1" [] in
  let reply := nth 0 (answers www "/srv/www" c) empty_response in
  exists code rest,
    status reply = Some code
    /\ ended reply = true
    /\ reply_headers reply
       = ("Server", version_string) :: ("Date", date_time_string (time c)) :: rest
    /\ ((400 <=? code)%Z = true -> headers_get "Connection" rest = Some "close").
Proof.
  apply (replies_open_alike www "/srv/www" (client "BREW /pot HTTP/1.1" [])
           (nth 0 (answers www "/srv/www" (client "BREW /pot HTTP/1.1" []))
                empty_response)).
  vm_compute. left. reflexivity.
Defined.

Lemma too_many_headers_is_431_witness :
  let c := client "GET / HTTP/1.1" (repeat "X-Pad: 1" 100) in
  answers www "/srv/www" c
  = [Reply.error (time c) 431 (Some "Too many headers")
       (Some "got more than 100 headers") (Reply.is_head (Some "GET"))].
Proof.
  apply (too_many_headers_is_431 www "/srv/www"
           (client "GET / HTTP/1.1" (repeat "X-Pad: 1" 100))
           ("GET / HTTP/1.1" ++ CR ++ LF) hundred_headers [CR ++ LF]
           "GET" "/" "HTTP/1.1" "1.1" (1, 1)%Z).
  - reflexivity.
  - reflexivity.
  - vm_compute. discriminate.
  - reflexivity.
  - reflexivity.
  - reflexivity.
  - reflexivity.
  - apply Forall_forall. intros l I.
    apply in_map_iff in I. destruct I as (x & <- & I).
    apply repeat_spec in I. subst x.
    repeat split; [vm_compute|..]; discriminate.
  - vm_compute. discriminate.
Defined.

Lemma version_is_checked_witness :
  let c := client "GET / HTTP/2.0" [] in
  let ws := ["GET"; "/"; "HTTP/2.0"] in
  match parse_version (last ws "") with
  | None =>
      answers www "/srv/www" c
      = [Reply.error (time c) 400
           (Some ("Bad request version (" ++ repr (last ws "") ++ ")")) None false]
  | Some (base_version_number, version_number) =>
      version_ge version_number (2, 0)%Z = true ->
      answers www "/srv/www" c
      = [Reply.error (time c) 505
           (Some ("Invalid HTTP version (" ++ base_version_number ++ ")"))
           None false]
  end.
Proof.
  apply (version_is_checked www "/srv/www" (client "GET / HTTP/2.0" [])
           ("GET / HTTP/2.0" ++ CR ++ LF) [CR ++ LF] ["GET"; "/"; "HTTP/2.0"]).
  - reflexivity.
  - reflexivity.
  - vm_compute. discriminate.
  - reflexivity.
  - simpl. lia.
Defined.

Lemma silence_gets_no_reply_witness :
  let c := mk_connection "10.0.0.2" 7 [CR ++ LF] None in
  fst (Handler www "/srv/www" c) = Ok tt
  /\ answers www "/srv/www" c = []
  /\ stderr (snd (Handler www "/srv/www" c)) = []
  /\ close_connection (snd (Handler www "/srv/www" c)) = true.
Proof.
  apply (silence_gets_no_reply www "/srv/www"
           (mk_connection "10.0.0.2" 7 [CR ++ LF] None)).
  - reflexivity.
  - vm_compute. discriminate.
  - reflexivity.
Defined.

Lemma long_request_line_is_414_witness :
  let c := mk_connection "10.0.0.3" 9 [long_line ++ CR ++ LF; CR ++ LF] None in
  answers www "/srv/www" c = [Reply.error (time c) 414 None None false].
Proof.
  apply (long_request_line_is_414 www "/srv/www"
           (mk_connection "10.0.0.3" 9 [long_line ++ CR ++ LF; CR ++ LF] None)
           (long_line ++ CR ++ LF) [CR ++ LF]).
  - reflexivity.
  - reflexivity.
  - vm_compute. reflexivity.
Defined.

Lemma directory_without_slash_is_moved_witness :
  let c := client "GET /sub HTTP/1.1" [] in
  answers www "/srv/www" c = [Reply.moved (time c) (redirect_url "/sub")].
Proof.
  apply (directory_without_slash_is_moved www "/srv/www"
           (client "GET /sub HTTP/1.1" [])
           (mk_request "GET /sub HTTP/1.1" (Some "GET") "/sub" "HTTP/1.1" [])
           "/sub").
  - vm_compute. reflexivity.
  - reflexivity.
  - reflexivity.
  - reflexivity.
  - reflexivity.
Defined.


Lemma head_of_a_file_witness :
  let c := client "HEAD /index.html HTTP/1.1" [] in
  answers www "/srv/www" c
  = [if not_modified [] 784111777 then Reply.unchanged (time c)
     else Reply.file (time c) (guess_type (translate_path "/srv/www" "/index.html"))
                     (String.length "<h1>hi</h1>") 784111777].
Proof.
  apply (head_of_a_file www "/srv/www"
           (client "HEAD /index.html HTTP/1.1" [])
           (mk_request "HEAD /index.html HTTP/1.1" (Some "HEAD") "/index.html"
                       "HTTP/1.1" [])
           "<h1>hi</h1>" 784111777).
  - vm_compute. reflexivity.
  - reflexivity.
  - reflexivity.
Defined.

Lemma last_modified_comes_back_witness :
  let c := client "GET /index.html HTTP/1.1"
             ["If-Modified-Since: Sun, 06 Nov 1994 08:49:37 GMT"] in
  answers www "/srv/www" c = [Reply.unchanged (time c)].
Proof.
  apply (last_modified_comes_back www "/srv/www"
           (client "GET /index.html HTTP/1.1"
                   ["If-Modified-Since: Sun, 06 Nov 1994 08:49:37 GMT"])
           (mk_request "GET /index.html HTTP/1.1" (Some "GET") "/index.html"
                       "HTTP/1.1"
                       [("If-Modified-Since", "Sun, 06 Nov 1994 08:49:37 GMT")])
           "<h1>hi</h1>" 784111777).
  - vm_compute. reflexivity.
  - reflexivity.
  - reflexivity.
  - vm_compute. reflexivity.
  - reflexivity.
  - vm_compute. reflexivity.
Defined.

Lemma index_of_a_directory_witness :
  let c := client "GET / HTTP/1.1" [] in
  answers www "/srv/www" c
  = [if not_modified [] 784111777 then Reply.unchanged (time c)
     else Reply.with_body
            (Reply.file (time c)
               (guess_type (posixpath.join (translate_path "/srv/www" "/") "index.html"))
               (String.length "<h1>hi</h1>") 784111777)
            "<h1>hi</h1>"].
Proof.
  apply (index_of_a_directory www "/srv/www" (client "GET / HTTP/1.1" [])
           (mk_request "GET / HTTP/1.1" (Some "GET") "/" "HTTP/1.1" [])
           "/" "<h1>hi</h1>" 784111777).
  - vm_compute. reflexivity.
  - reflexivity.
  - reflexivity.
  - reflexivity.
  - reflexivity.
  - reflexivity.
Defined.

Lemma old_requests_are_get_only_witness :
  let c := client "HEAD /index.html" [] in
  answers www "/srv/www" c
  = [Reply.error (time c) 400
       (Some ("Bad HTTP/0.9 request type (" ++ repr "HEAD" ++ ")")) None false].
Proof.
  apply (old_requests_are_get_only www "/srv/www"
           (client "HEAD /index.html" [])
           ("HEAD /index.html" ++ CR ++ LF) [CR ++ LF] "HEAD" "/index.html").
  - reflexivity.
  - reflexivity.
  - vm_compute. discriminate.
  - reflexivity.
  - discriminate.
Defined.

Lemma old_clients_get_the_body_only_witness :
  let c := client "GET /index.html" [] in
  let rq := mk_request "GET /index.html" (Some "GET") "/index.html" "HTTP/0.9" [] in
  request_version rq = "HTTP/0.9"
  /\ map (wire (request_version rq)) (answers www "/srv/www" c)
     = map (fun reply => if is_empty (body reply) then [] else [body reply])
           (answers www "/srv/www" c).
Proof.
  apply (old_clients_get_the_body_only www "/srv/www"
           (client "GET /index.html" [])
           (mk_request "GET /index.html" (Some "GET") "/index.html" "HTTP/0.9" [])
           "/index.html").
  - vm_compute. reflexivity.
  - reflexivity.
Defined.

End Behaviour.
